(** * Bus complaint system: a shallow embedding of [app.py]

    The request handlers of the Flask application are embedded as
    functions over an explicit [world] (the two MongoDB collections, the
    flashed messages, the mail attempts and the counters of clock reads
    and generated ids).  What the handlers take from their libraries and
    from the platform (the date parser, the clock, the id generator, the
    mail transport, the password hasher, the [ObjectId] parser, the
    lowercasing of text) is
    collected in a record [environment], so that every statement holds
    for any behaviour of these collaborators.

    Modelling conventions.
    - Text is [string], read as the UTF-8 encoding of a Python [str]:
      one text occurs in another as a block of code points exactly when
      its encoding occurs in the other's as a block of bytes.  What
      [str.lower()] gives is fixed by the Unicode tables and is taken
      from the [environment].
    - A [datetime] is the number of milliseconds since
      0001-01-01T00:00:00.  BSON stores dates with millisecond precision
      and the only other use of a clock reading formats it to the
      minute, so nothing the handlers observe is finer than that.
    - An exception is a pair of a class name and a message.  A handler
      returns [Ok r] or [Raise e] (an uncaught exception, which Flask
      answers with status 500) together with the world it leaves: no
      write is ever undone.
    - The store answers every query and accepts every write; a handler
      takes the caller that [login_required] let through as its
      [current_user]. *)

From Stdlib Require Import ZArith List String Ascii Bool Lia.
Import ListNotations.
Open Scope string_scope.
Open Scope Z_scope.

(** ** Text *)

Module Text.

(** [c.lower()] on an ASCII character. *)
Definition lower_ascii (c : ascii) : ascii :=
  let n := nat_of_ascii c in
  if (Nat.leb 65 n && Nat.leb n 90)%bool then ascii_of_nat (n + 32) else c.

(** Lowercasing of ASCII text: what [s.lower()] gives when [s] has no
    character beyond ASCII.  The handlers take their lowercasing from
    the [environment]; this one serves its concrete instance. *)
Fixpoint ascii_lower (s : string) : string :=
  match s with
  | EmptyString => EmptyString
  | String c s' => String (lower_ascii c) (ascii_lower s')
  end.

(** [b.startswith(a)] *)
Fixpoint startswith (a b : string) : bool :=
  match a, b with
  | EmptyString, _ => true
  | String _ _, EmptyString => false
  | String x a', String y b' => Ascii.eqb x y && startswith a' b'
  end.

(** [a in b] for two strings: [a] occurs in [b] as a contiguous block. *)
Fixpoint str_in (a b : string) : bool :=
  startswith a b ||
  match b with
  | EmptyString => false
  | String _ b' => str_in a b'
  end.

(** The mathematical reading of [a in b]. *)
Definition substring_of (a b : string) : Prop :=
  exists pre post, b = pre ++ a ++ post.

(** Truth value of a form field: [None] and [''] are falsy. *)
Definition truthy (v : option string) : bool :=
  match v with
  | Some s => negb (String.eqb s "")
  | None => false
  end.

End Text.
Import Text.

(** ** Exceptions and results *)

Record exn := Exception { exn_class : string; exn_text : string }.

Inductive result (A : Type) : Type :=
| Ok (a : A)
| Raise (e : exn).
Arguments Ok {A} a.
Arguments Raise {A} e.

(** ** Dates *)

Module Datetime.

Definition datetime := Z.

Definition ms_per_day : Z := 86400000.

(** [datetime.max.toordinal()], the ordinal of 9999-12-31. *)
Definition max_ordinal : Z := 3652059.

(** The last representable instant, 9999-12-31T23:59:59.999. *)
Definition datetime_max : datetime := max_ordinal * ms_per_day - 1.

Definition in_range (d : Z) : bool := (0 <=? d) && (d <=? datetime_max).

(** [d + timedelta(days=n)] *)
Definition add_days (d : datetime) (n : Z) : result datetime :=
  let r := d + n * ms_per_day in
  if in_range r then Ok r
  else Raise (Exception "OverflowError" "date value out of range").

(** The calendar arithmetic of [datetime.py]. *)
Definition is_leap (y : Z) : bool :=
  (y mod 4 =? 0) && (negb (y mod 100 =? 0) || (y mod 400 =? 0)).

Definition days_in_month (y m : Z) : Z :=
  if m =? 2 then (if is_leap y then 29 else 28)
  else if (m =? 4) || (m =? 6) || (m =? 9) || (m =? 11) then 30
  else 31.

Definition days_before_year (y : Z) : Z :=
  let p := y - 1 in p * 365 + p / 4 - p / 100 + p / 400.

Fixpoint days_before_month_aux (y : Z) (k : nat) : Z :=
  match k with
  | O => 0
  | S k' => days_before_month_aux y k' + days_in_month y (Z.of_nat k)
  end.

Definition days_before_month (y m : Z) : Z :=
  days_before_month_aux y (Z.to_nat (m - 1)).

(** [date(y, m, d).toordinal()]: 0001-01-01 has ordinal 1. *)
Definition ymd2ord (y m d : Z) : Z :=
  days_before_year y + days_before_month y m + d.

(** [datetime(y, m, d)], midnight of that day. *)
Definition midnight (y m d : Z) : datetime := (ymd2ord y m d - 1) * ms_per_day.

Definition valid_date (y m d : Z) : bool :=
  (1 <=? y) && (y <=? 9999) && (1 <=? m) && (m <=? 12) &&
  (1 <=? d) && (d <=? days_in_month y m).

Definition digit (c : ascii) : option Z :=
  let n := nat_of_ascii c in
  if (Nat.leb 48 n && Nat.leb n 57)%bool then Some (Z.of_nat (n - 48)) else None.

Definition number (cs : list ascii) : option Z :=
  fold_left (fun acc c =>
               match acc, digit c with
               | Some a, Some v => Some (10 * a + v)
               | _, _ => None
               end) cs (Some 0).

Definition does_not_match (s : string) : exn :=
  Exception "ValueError"
    ("time data '" ++ s ++ "' does not match format '%Y-%m-%d'").

(** A reader of dates for the concrete environment below.  It reads a
    text of the zero-padded form [YYYY-MM-DD] that names a day of the
    calendar, as [datetime.strptime(s, '%Y-%m-%d')] does, and refuses
    every other text in the words [strptime] has for a text that does
    not fit the format.  [strptime] itself reads more texts (a month or
    a day of one digit) and words some refusals otherwise; the
    statements take the parser from the [environment], and this reader
    is run only on texts where the two agree. *)
Definition strptime_iso (s : string) : result datetime :=
  match list_ascii_of_string s with
  | [y1; y2; y3; y4; "-"%char; m1; m2; "-"%char; d1; d2] =>
      match number [y1; y2; y3; y4], number [m1; m2], number [d1; d2] with
      | Some y, Some m, Some d =>
          if valid_date y m d then Ok (midnight y m d)
          else Raise (does_not_match s)
      | _, _, _ => Raise (does_not_match s)
      end
  | _ => Raise (does_not_match s)
  end.

End Datetime.
Import Datetime.

(** ** Documents, messages and the world *)

(** An [ObjectId] in its 24-digit hexadecimal form, which is also what
    [str(oid)] gives. *)
Definition oid := string.

(** A document of [db.users].  [email] and [role] are whatever the
    registration form held, [None] when the field was absent. *)
Record user := mkUser {
  u_id : oid;
  u_email : option string;
  u_password : string;
  u_role : option string;
  u_created_at : datetime
}.

(** A document of [db.complaints].  The handlers index every field
    directly except [description], which they read with
    [.get('description', '')]: [None] is a document without that key. *)
Record complaint := mkComplaint {
  c_id : oid;
  user_id : string;
  student_id : string;
  bus_route : string;
  title : string;
  description : option string;
  location : string;
  status : string;
  created_at : datetime;
  updated_at : datetime;
  incident_date : datetime
}.

(** The three f-string templates, kept as the data they interpolate. *)
Inductive template :=
| WelcomeTemplate (email : option string)
| StatusUpdateTemplate (email : option string) (title status : string)
    (updated : datetime)
| ConfirmationTemplate (email : option string)
    (title bus_route location : string) (incident_date : datetime).

Record Message := mkMessage {
  subject : string;
  recipients : list (option string);
  html : template
}.

Inductive json_body :=
| DuplicateBody (duplicate : bool) (message : option string)
| ErrorBody (error : string).

Inductive response :=
| Redirect (endpoint : string)
| RenderTemplate (name : string)
| RenderSubmitForm (bus_routes : list string)
| RenderAdminDashboard (complaints : list complaint) (users : list user)
    (total_complaints pending_complaints resolved_complaints : nat)
| Json (body : json_body) (code : Z).

Inductive http_method := GET | POST.

Record world := mkWorld {
  db_users : list user;
  db_complaints : list complaint;
  flashes : list (string * string);
  mail_attempts : list Message;
  stdout : list string;
  clock_reads : nat;
  ids_generated : nat
}.

Definition empty_world : world := mkWorld [] [] [] [] [] 0 0.

(** What the handlers take from outside. *)
Record environment := mkEnvironment {
  (** [datetime.strptime(s, '%Y-%m-%d')] *)
  strptime : option string -> result datetime;
  (** the value of the [n]-th call of [datetime.utcnow()] *)
  utcnow_at : nat -> datetime;
  (** the [n]-th id generated by [insert_one] *)
  new_ObjectId : nat -> oid;
  (** [ObjectId(s)] *)
  ObjectId : string -> result oid;
  (** building and sending a mail message *)
  mail_send : Message -> result unit;
  (** [generate_password_hash(p)] *)
  generate_password_hash : option string -> result string;
  (** [s.lower()] *)
  lower : string -> string
}.

(** ** State with exceptions *)

Definition M (A : Type) : Type := world -> result A * world.

Definition ret {A} (a : A) : M A := fun w => (Ok a, w).

Definition lift {A} (r : result A) : M A := fun w => (r, w).

Definition bind {A B} (m : M A) (k : A -> M B) : M B :=
  fun w =>
    match m w with
    | (Ok a, w') => k a w'
    | (Raise e, w') => (Raise e, w')
    end.

(** [try: m  except Exception as e: handler e] *)
Definition try_except {A} (m : M A) (handler : exn -> M A) : M A :=
  fun w =>
    match m w with
    | (Ok a, w') => (Ok a, w')
    | (Raise e, w') => handler e w'
    end.

Declare Scope monad_scope.
Delimit Scope monad_scope with monad.
Notation "x <- m ;; k" := (bind m (fun x => k))
  (at level 61, m at next level, right associativity) : monad_scope.
Notation "m ;; k" := (bind m (fun _ => k))
  (at level 61, right associativity) : monad_scope.
Open Scope monad_scope.

Definition gets {A} (f : world -> A) : M A := fun w => (Ok (f w), w).

Definition modify (f : world -> world) : M unit := fun w => (Ok tt, f w).

Definition set_users (us : list user) (w : world) : world :=
  mkWorld us (db_complaints w) (flashes w) (mail_attempts w) (stdout w)
    (clock_reads w) (ids_generated w).

Definition set_complaints (cs : list complaint) (w : world) : world :=
  mkWorld (db_users w) cs (flashes w) (mail_attempts w) (stdout w)
    (clock_reads w) (ids_generated w).

Definition add_flash (f : string * string) (w : world) : world :=
  mkWorld (db_users w) (db_complaints w) (flashes w ++ [f]) (mail_attempts w)
    (stdout w) (clock_reads w) (ids_generated w).

Definition add_mail_attempt (m : Message) (w : world) : world :=
  mkWorld (db_users w) (db_complaints w) (flashes w) (mail_attempts w ++ [m])
    (stdout w) (clock_reads w) (ids_generated w).

Definition add_stdout (s : string) (w : world) : world :=
  mkWorld (db_users w) (db_complaints w) (flashes w) (mail_attempts w)
    (stdout w ++ [s]) (clock_reads w) (ids_generated w).

Definition tick (w : world) : world :=
  mkWorld (db_users w) (db_complaints w) (flashes w) (mail_attempts w)
    (stdout w) (S (clock_reads w)) (ids_generated w).

Definition next_id (w : world) : world :=
  mkWorld (db_users w) (db_complaints w) (flashes w) (mail_attempts w)
    (stdout w) (clock_reads w) (S (ids_generated w)).

(** [flash(message)] has category ['message']. *)
Definition flash (message : string) (category : string) : M unit :=
  modify (add_flash (message, category)).

Definition print (s : string) : M unit := modify (add_stdout s).

(** [datetime.utcnow()] *)
Definition utcnow (E : environment) : M datetime :=
  fun w => (Ok (utcnow_at E (clock_reads w)), tick w).

Definition generate_id (E : environment) : M oid :=
  fun w => (Ok (new_ObjectId E (ids_generated w)), next_id w).

Definition option_eqb (a b : option string) : bool :=
  match a, b with
  | Some x, Some y => String.eqb x y
  | None, None => true
  | _, _ => false
  end.

(** ** The collections *)

(** [db.users.find_one({'email': email})] *)
Definition find_user_by_email (email : option string) (us : list user)
  : option user :=
  find (fun u => option_eqb (u_email u) email) us.

(** [db.users.find_one({'_id': o})] *)
Definition find_user_by_id (o : oid) (us : list user) : option user :=
  find (fun u => String.eqb (u_id u) o) us.

(** [db.users.find({'role': role})] *)
Definition find_users_by_role (role : string) (us : list user) : list user :=
  filter (fun u => option_eqb (u_role u) (Some role)) us.

(** The query [{'bus_route': r, 'incident_date': {'$gte': lo, '$lt': hi}}]. *)
Definition matches_route_and_day (r : option string) (lo hi : datetime)
    (c : complaint) : bool :=
  option_eqb (Some (bus_route c)) r &&
  (lo <=? incident_date c) && (incident_date c <? hi).

Definition find_complaints (r : option string) (lo hi : datetime)
    (cs : list complaint) : list complaint :=
  filter (matches_route_and_day r lo hi) cs.

(** The update [{'$set': {'status': s, 'updated_at': now}}]. *)
Definition set_status (s : string) (now : datetime) (c : complaint)
  : complaint :=
  mkComplaint (c_id c) (user_id c) (student_id c) (bus_route c) (title c)
    (description c) (location c) s (created_at c) now (incident_date c).

(** [find_one_and_update({'_id': o}, {'$set': ...}, return_document=True)]
    on the documents of the collection: the first one with that id is
    updated and returned as it is after the update. *)
Fixpoint find_one_and_update (o : oid) (s : string) (now : datetime)
    (cs : list complaint) : option complaint * list complaint :=
  match cs with
  | [] => (None, [])
  | c :: rest =>
      if String.eqb (c_id c) o then
        (Some (set_status s now c), set_status s now c :: rest)
      else
        let (found, rest') := find_one_and_update o s now rest in
        (found, c :: rest')
  end.

(** [insert_one(doc)]: the driver gives the document a new [_id]. *)
Definition insert_user (E : environment) (email : option string)
    (password : string) (role : option string) (created : datetime)
  : M unit :=
  o <- generate_id E ;;
  modify (fun w =>
            set_users (db_users w ++ [mkUser o email password role created]) w).

Definition insert_complaint (E : environment) (doc : oid -> complaint)
  : M unit :=
  o <- generate_id E ;;
  modify (fun w => set_complaints (db_complaints w ++ [doc o]) w).

(** ** The handlers *)

Record register_form := mkRegisterForm {
  r_email : option string;
  r_password : option string;
  r_role : option string
}.

Record complaint_form := mkComplaintForm {
  f_student_id : option string;
  f_bus_route : option string;
  f_title : option string;
  f_description : option string;
  f_location : option string;
  f_incident_date : option string
}.

(** A JSON object posted to [/check_duplicate_complaint]: its three
    fields are strings, [None] when the object has no such key. *)
Record duplicate_query := mkDuplicateQuery {
  q_bus_route : option string;
  q_description : option string;
  q_incident_date : option string
}.

(** What [request.get_json()] returns: an object, or a JSON value of
    another Python type ([NoneType] for [null], [list], [str], [int],
    [float], [bool]). *)
Inductive json_data :=
| JsonObject (fields : duplicate_query)
| JsonOther (type_name : string).

(** [data.get(key)] *)
Definition data_get (data : json_data)
    (key : duplicate_query -> option string) : result (option string) :=
  match data with
  | JsonObject fields => Ok (key fields)
  | JsonOther type_name =>
      Raise (Exception "AttributeError"
               ("'" ++ type_name ++ "' object has no attribute 'get'"))
  end.

(** [mail.send(Message(subject, recipients=[recipient], html=template))] *)
Definition mail_send_message (E : environment) (msg : Message) : M unit :=
  fun w => (mail_send E msg, add_mail_attempt msg w).

Definition send_email (E : environment) (subject : string)
    (recipient : option string) (body : template) : M bool :=
  try_except
    (mail_send_message E (mkMessage subject [recipient] body) ;;
     ret true)
    (fun e =>
       print ("Error sending email: " ++ exn_text e) ;;
       ret false).

Definition register (E : environment) (method : http_method)
    (form : register_form) : M response :=
  match method with
  | POST =>
      let email := r_email form in
      let password := r_password form in
      let role := r_role form in
      existing <- gets (fun w => find_user_by_email email (db_users w)) ;;
      match existing with
      | Some _ =>
          flash "Email already exists" "message" ;;
          ret (Redirect "register")
      | None =>
          hashed_password <- lift (generate_password_hash E password) ;;
          now <- utcnow E ;;
          insert_user E email hashed_password role now ;;
          sent <- send_email E "Welcome to Bus Complaint System" email
                    (WelcomeTemplate email) ;;
          (if sent : bool
           then flash "Registration successful. Welcome email sent!" "message"
           else flash
                  "Registration successful, but welcome email could not be sent."
                  "message") ;;
          ret (Redirect "login")
      end
  | GET => ret (RenderTemplate "register.html")
  end.

(** [current_user.user_data['role'] == 'admin'] *)
Definition is_admin (current_user : user) : bool :=
  option_eqb (u_role current_user) (Some "admin").

Definition update_complaint_status (E : environment) (current_user : user)
    (complaint_id status : string) : M response :=
  if negb (is_admin current_user) then
    flash "Unauthorized access" "message" ;;
    ret (Redirect "dashboard")
  else
    o <- lift (ObjectId E complaint_id) ;;
    now <- utcnow E ;;
    found <- (fun w =>
                let (found, cs) :=
                  find_one_and_update o status now (db_complaints w) in
                (Ok found, set_complaints cs w)) ;;
    match found with
    | Some c =>
        owner <- lift (ObjectId E (user_id c)) ;;
        usr <- gets (fun w => find_user_by_id owner (db_users w)) ;;
        match usr with
        | Some u =>
            shown <- utcnow E ;;
            sent <- send_email E "Complaint Status Update" (u_email u)
                      (StatusUpdateTemplate (u_email u) (title c) status
                         shown) ;;
            if sent : bool
            then flash
                   "Complaint status updated successfully. Notification email sent!"
                   "message"
            else flash
                   "Complaint status updated successfully, but notification email could not be sent."
                   "message"
        | None => ret tt
        end
    | None => ret tt
    end ;;
    ret (Redirect "admin_dashboard").

Definition count_status (s : string) (cs : list complaint) : nat :=
  List.length (filter (fun c => String.eqb (status c) s) cs).

Definition admin_dashboard (current_user : user) : M response :=
  if negb (is_admin current_user) then
    ret (Redirect "dashboard")
  else
    complaints <- gets db_complaints ;;
    users <- gets (fun w => find_users_by_role "student" (db_users w)) ;;
    ret (RenderAdminDashboard complaints users
           (List.length complaints)
           (count_status "pending" complaints)
           (count_status "resolved" complaints)).

(** [complaint.get('description', '').lower()] *)
Definition existing_description (E : environment) (c : complaint)
  : string :=
  lower E (match description c with Some d => d | None => "" end).

(** [description.lower()] where [description] may be [None]. *)
Definition lower_of (E : environment) (description : option string)
  : result string :=
  match description with
  | Some d => Ok (lower E d)
  | None =>
      Raise (Exception "AttributeError"
               "'NoneType' object has no attribute 'lower'")
  end.

(** The loop of [submit_complaint] over the complaints found: [Ok true]
    when it leaves through the [if], [Ok false] when it runs to the
    end. *)
Fixpoint submit_complaint_loop (E : environment)
    (description : option string) (existing_complaints : list complaint)
  : result bool :=
  match existing_complaints with
  | [] => Ok false
  | complaint :: rest =>
      let existing := existing_description E complaint in
      match lower_of E description with
      | Raise e => Raise e
      | Ok d =>
          if str_in d existing || str_in existing d then Ok true
          else submit_complaint_loop E description rest
      end
  end.

Definition bus_routes : list string :=
  ["Route 1"; "Route 2"; "Route 3"; "Route 4"; "Route 5"].

(** A validated field: the text of a form field that is present. *)
Definition text (v : option string) : string :=
  match v with Some s => s | None => "" end.

Definition submit_complaint (E : environment) (current_user : user)
    (method : http_method) (form : complaint_form) : M response :=
  match method with
  | POST =>
      let student_id := f_student_id form in
      let bus_route := f_bus_route form in
      let title := f_title form in
      let description := f_description form in
      let location := f_location form in
      let incident_date := f_incident_date form in
      if negb (forallb truthy [student_id; bus_route; title; description;
                               location; incident_date]) then
        flash "All fields are required" "error" ;;
        ret (Redirect "submit_complaint")
      else
        try_except
          (incident_date <- lift (strptime E incident_date) ;;
           next_day <- lift (add_days incident_date 1) ;;
           existing_complaints <-
             gets (fun w => find_complaints bus_route incident_date next_day
                              (db_complaints w)) ;;
           similar <- lift (submit_complaint_loop E description
                              existing_complaints) ;;
           if similar : bool then
             flash
               "A similar complaint has already been submitted for this bus on the selected date."
               "warning" ;;
             ret (Redirect "submit_complaint")
           else
             created <- utcnow E ;;
             updated <- utcnow E ;;
             insert_complaint E (fun o =>
               mkComplaint o (u_id current_user) (text student_id)
                 (text bus_route) (text title) description (text location)
                 "pending" created updated incident_date) ;;
             sent <- send_email E "Complaint Submission Confirmation"
                       (u_email current_user)
                       (ConfirmationTemplate (u_email current_user)
                          (text title) (text bus_route) (text location)
                          incident_date) ;;
             (if sent : bool
              then flash
                     "Complaint submitted successfully. Confirmation email sent!"
                     "success"
              else flash
                     "Complaint submitted successfully, but confirmation email could not be sent."
                     "warning") ;;
             ret (Redirect "dashboard"))
          (fun e =>
             flash ("Error submitting complaint: " ++ exn_text e) "error" ;;
             ret (Redirect "submit_complaint"))
  | GET => ret (RenderSubmitForm bus_routes)
  end.

(** The loop of [check_duplicate_complaint]. *)
Fixpoint check_duplicate_loop (E : environment)
    (description : option string) (existing_complaints : list complaint)
  : result bool :=
  match existing_complaints with
  | [] => Ok false
  | complaint :: rest =>
      let existing := existing_description E complaint in
      match lower_of E description with
      | Raise e => Raise e
      | Ok d =>
          if str_in d existing || str_in existing d then Ok true
          else check_duplicate_loop E description rest
      end
  end.

Definition check_duplicate_complaint (E : environment)
    (data : json_data) : M response :=
  bus_route <- lift (data_get data q_bus_route) ;;
  description <- lift (data_get data q_description) ;;
  incident_date_str <- lift (data_get data q_incident_date) ;;
  try_except
    (incident_date <- lift (strptime E incident_date_str) ;;
     next_day <- lift (add_days incident_date 1) ;;
     existing_complaints <-
       gets (fun w => find_complaints bus_route incident_date next_day
                        (db_complaints w)) ;;
     similar <- lift (check_duplicate_loop E description
                        existing_complaints) ;;
     if similar : bool then
       ret (Json (DuplicateBody true
                    (Some "A similar complaint has already been submitted."))
              200)
     else
       ret (Json (DuplicateBody false None) 200))
    (fun e => ret (Json (ErrorBody (exn_text e)) 500)).

(** ** A concrete environment

    One behaviour of the collaborators, to run the handlers on concrete
    requests: the strict date parser, a clock that advances by one
    millisecond per reading from 2024-03-01T00:00, ids numbered from
    zero, 24-digit hexadecimal [ObjectId]s, a stand-in for the salted
    hasher and the lowercasing of ASCII text.  The requests it is run on
    are ASCII and zero-padded, where it agrees with the libraries. *)

Module Sample.

Definition strptime_arg (s : option string) : result datetime :=
  match s with
  | Some s => strptime_iso s
  | None =>
      Raise (Exception "TypeError"
               "strptime() argument 1 must be str, not None")
  end.

Definition hex_char (n : N) : ascii :=
  if (n <? 10)%N then ascii_of_N (48 + n) else ascii_of_N (87 + n).

Fixpoint hex_digits (width : nat) (n : N) : string :=
  match width with
  | O => EmptyString
  | S k => hex_digits k (n / 16) ++ String (hex_char (n mod 16)) EmptyString
  end.

Definition oid_of_nat (n : nat) : oid := hex_digits 24 (N.of_nat n).

Definition is_hex (c : ascii) : bool :=
  let n := nat_of_ascii (lower_ascii c) in
  ((Nat.leb 48 n && Nat.leb n 57) || (Nat.leb 97 n && Nat.leb n 102))%bool.

Definition ObjectId_hex (s : string) : result oid :=
  if (Nat.eqb (String.length s) 24 &&
      forallb is_hex (list_ascii_of_string s))%bool
  then Ok (ascii_lower s)
  else Raise (Exception "InvalidId"
                ("'" ++ s ++ "' is not a valid ObjectId, it must be a 12-byte input or a 24-character hex string")).

Definition hash_stub (p : option string) : result string :=
  match p with
  | Some s => Ok ("hashed:" ++ s)
  | None =>
      Raise (Exception "AttributeError"
               "'NoneType' object has no attribute 'encode'")
  end.

Definition mail_up (_ : Message) : result unit := Ok tt.

Definition mail_down (_ : Message) : result unit :=
  Raise (Exception "ConnectionRefusedError" "[Errno 111] Connection refused").

Definition steady_clock (n : nat) : datetime :=
  midnight 2024 3 1 + Z.of_nat n.

Definition env : environment :=
  mkEnvironment strptime_arg steady_clock oid_of_nat ObjectId_hex mail_up
    hash_stub ascii_lower.

Definition student : user :=
  mkUser (oid_of_nat 100) (Some "a@x.com") "hashed:pw" (Some "student")
    (midnight 2024 2 1).

Definition admin : user :=
  mkUser (oid_of_nat 101) (Some "root@x.com") "hashed:pw" (Some "admin")
    (midnight 2024 2 1).

(** The complaint of the end-to-end scenario: route 1, "broken AC unit",
    2024-03-01. *)
Definition broken_ac : complaint :=
  mkComplaint (oid_of_nat 7) (oid_of_nat 100) "S-17" "Route 1" "AC"
    (Some "broken AC unit") "Main St" "pending"
    (midnight 2024 3 1) (midnight 2024 3 1) (midnight 2024 3 1).

Definition one_complaint : world :=
  mkWorld [student; admin] [broken_ac] [] [] [] 0 8.

Definition form (route descr date : string) : complaint_form :=
  mkComplaintForm (Some "S-17") (Some route) (Some "AC") (Some descr)
    (Some "Main St") (Some date).

End Sample.

(** ** Vocabulary of the statements *)

(** The description a stored complaint is compared by. *)
Definition stored_description (c : complaint) : string :=
  match description c with Some d => d | None => "" end.

(** Containment in one direction or the other, after lowercasing. *)
Definition similar (E : environment) (a b : string) : Prop :=
  substring_of (lower E a) (lower E b) \/
  substring_of (lower E b) (lower E a).

(** Complaint [c] is on route [r], on the calendar day that starts at
    [d], and its description is similar to [s]. *)
Definition duplicate_of (E : environment) (r : string) (d : datetime)
    (s : string) (c : complaint) : Prop :=
  bus_route c = r /\
  (d <= incident_date c /\ incident_date c < d + ms_per_day) /\
  similar E s (stored_description c).

Definition has_duplicate (E : environment) (w : world) (r : string)
    (d : datetime) (s : string) : Prop :=
  exists c, In c (db_complaints w) /\ duplicate_of E r d s c.

(** The endpoint answers [{'duplicate': True, ...}]. *)
Definition reports_duplicate (r : result response) : Prop :=
  exists message, r = Ok (Json (DuplicateBody true message) 200).

(** The endpoint answers [{'duplicate': False}]. *)
Definition reports_no_duplicate (r : result response) : Prop :=
  r = Ok (Json (DuplicateBody false None) 200).

(** The duplicate rule at route [r], date text [ds] read as the day [d]
    and description [s], against the store of [w]. *)
Definition duplicate_rule (E : environment) (w : world) (r ds : string)
    (d : datetime) (s : string) : Prop :=
  reports_duplicate
    (fst (check_duplicate_complaint E
            (JsonObject (mkDuplicateQuery (Some r) (Some s) (Some ds))) w))
  <-> has_duplicate E w r d s.

Definition with_description (s : string) (c : complaint) : complaint :=
  mkComplaint (c_id c) (user_id c) (student_id c) (bus_route c) (title c)
    (Some s) (location c) (status c) (created_at c) (updated_at c)
    (incident_date c).

(** The outcomes of [submit_complaint] as the caller sees them: the
    redirect and the message flashed. *)
Definition duplicate_warning : string * string :=
  ("A similar complaint has already been submitted for this bus on the selected date.",
   "warning").

Definition validation_error (w : world) : result response * world :=
  (Ok (Redirect "submit_complaint"),
   add_flash ("All fields are required", "error") w).

Definition duplicate_rejected (w : world) : result response * world :=
  (Ok (Redirect "submit_complaint"), add_flash duplicate_warning w).

Definition unauthorized (w : world) : result response * world :=
  (Ok (Redirect "dashboard"), add_flash ("Unauthorized access", "message") w).

Definition required_fields (form : complaint_form) : list (option string) :=
  [f_student_id form; f_bus_route form; f_title form; f_description form;
   f_location form; f_incident_date form].

Definition missing_or_empty (v : option string) : Prop :=
  v = None \/ v = Some "".

(** The query the client sends for a form before submitting it. *)
Definition query_of (form : complaint_form) : duplicate_query :=
  mkDuplicateQuery (f_bus_route form) (f_description form)
    (f_incident_date form).

(** The endpoint and the submit path take the same decision on [form]. *)
Definition same_decision (E : environment) (current_user : user)
    (form : complaint_form) (w : world) : Prop :=
  reports_duplicate
    (fst (check_duplicate_complaint E (JsonObject (query_of form)) w))
  <-> submit_complaint E current_user POST form w = duplicate_rejected w.

(** The inputs of [form] are judged a duplicate of a stored complaint:
    its date is read as a day [d] that has a next day, and the store
    holds a duplicate of its route, day and description. *)
Definition judged_duplicate (E : environment) (form : complaint_form)
    (w : world) : Prop :=
  exists d next_day,
    strptime E (f_incident_date form) = Ok d /\
    add_days d 1 = Ok next_day /\
    has_duplicate E w (text (f_bus_route form)) d
      (text (f_description form)).

(** The same environment with another mail transport. *)
Definition with_mail (E : environment) (m : Message -> result unit)
  : environment :=
  mkEnvironment (strptime E) (utcnow_at E) (new_ObjectId E) (ObjectId E) m
    (generate_password_hash E) (lower E).

(** The complaint a successful submission stores. *)
Definition submitted (E : environment) (current_user : user)
    (form : complaint_form) (d : datetime) (w : world) : complaint :=
  mkComplaint (new_ObjectId E (ids_generated w)) (u_id current_user)
    (text (f_student_id form)) (text (f_bus_route form))
    (text (f_title form)) (f_description form) (text (f_location form))
    "pending" (utcnow_at E (clock_reads w))
    (utcnow_at E (S (clock_reads w))) d.

(** [complaint_id] names a stored complaint. *)
Definition present (E : environment) (complaint_id : string) (w : world)
  : Prop :=
  exists o c,
    ObjectId E complaint_id = Ok o /\ In c (db_complaints w) /\ c_id c = o.

(** What the caller of a handler can see of a run: the answer, the
    messages flashed and the mails attempted. *)
Definition observation : Type :=
  result response * list (string * string) * list Message.

Definition observe (out : result response * world) : observation :=
  (fst out, flashes (snd out), mail_attempts (snd out)).

(** [NotFound] is an outcome of [update_complaint_status] of its own: an
    admin gets it for every id that names no stored complaint, and never
    for an id that names one. *)
Definition signals_not_found (NotFound : observation -> Prop) : Prop :=
  (forall E u complaint_id st w,
      is_admin u = true -> ~ present E complaint_id w ->
      NotFound (observe (update_complaint_status E u complaint_id st w)))
  /\
  (forall E u complaint_id st w,
      is_admin u = true -> present E complaint_id w ->
      ~ NotFound (observe (update_complaint_status E u complaint_id st w))).

(** A complaint whose owner has no user record. *)
Definition orphan : complaint :=
  mkComplaint (Sample.oid_of_nat 9) (Sample.oid_of_nat 404) "S-20" "Route 3"
    "Late" (Some "bus was late") "Depot" "pending"
    (midnight 2024 3 1) (midnight 2024 3 1) (midnight 2024 3 1).

(** ** Runs of requests *)

Inductive request :=
| Register (method : http_method) (form : register_form)
| UpdateComplaintStatus (current_user : user) (complaint_id status : string)
| AdminDashboard (current_user : user)
| SubmitComplaint (current_user : user) (method : http_method)
    (form : complaint_form)
| CheckDuplicateComplaint (data : json_data).

Definition handle (E : environment) (req : request) : M response :=
  match req with
  | Register method form => register E method form
  | UpdateComplaintStatus u complaint_id st =>
      update_complaint_status E u complaint_id st
  | AdminDashboard u => admin_dashboard u
  | SubmitComplaint u method form => submit_complaint E u method form
  | CheckDuplicateComplaint data => check_duplicate_complaint E data
  end.

(** The world after serving the requests one after the other. *)
Fixpoint run (E : environment) (reqs : list request) (w : world) : world :=
  match reqs with
  | [] => w
  | req :: rest => run E rest (snd (handle E req w))
  end.

Definition well_timed (c : complaint) : Prop := created_at c <= updated_at c.

(** Successive readings of the clock never decrease. *)
Definition monotone_clock (E : environment) : Prop :=
  forall n, utcnow_at E n <= utcnow_at E (S n).

(** Every stored complaint is well timed and was created no later than
    the next reading of the clock. *)
Definition timestamps_consistent (E : environment) (w : world) : Prop :=
  Forall (fun c => well_timed c /\
                   created_at c <= utcnow_at E (clock_reads w))
    (db_complaints w).

(** A clock that is set back by a second after its first reading. *)
Definition stepping_back_clock (n : nat) : datetime :=
  match n with
  | O => midnight 2024 3 1 + 1000
  | S _ => midnight 2024 3 1 + Z.of_nat n
  end.

Definition env_stepping_back : environment :=
  mkEnvironment Sample.strptime_arg stepping_back_clock Sample.oid_of_nat
    Sample.ObjectId_hex Sample.mail_up Sample.hash_stub ascii_lower.

(** The admin gates let [u] through: the dashboard is rendered for [u]
    and a status update requested by [u] is carried out. *)
Definition passes_admin_gates (E : environment) (u : user) : Prop :=
  (forall w,
      admin_dashboard u w =
      (Ok (RenderAdminDashboard (db_complaints w)
             (find_users_by_role "student" (db_users w))
             (List.length (db_complaints w))
             (count_status "pending" (db_complaints w))
             (count_status "resolved" (db_complaints w))), w))
  /\
  (forall complaint_id st o w,
      ObjectId E complaint_id = Ok o ->
      db_complaints (snd (update_complaint_status E u complaint_id st w)) =
      snd (find_one_and_update o st (utcnow_at E (clock_reads w))
             (db_complaints w))).

(** The test of the two loops on one candidate. *)
Definition similarb (E : environment) (s : string) (c : complaint) : bool :=
  str_in (lower E s) (existing_description E c) ||
  str_in (existing_description E c) (lower E s).

(** ** Worlds and requests of the examples *)

Module Scenario.
Import Sample.

(** A complaint stored for the last day a [datetime] can hold. *)
Definition last_day_complaint : complaint :=
  mkComplaint (oid_of_nat 3) (oid_of_nat 100) "S-17" "Route 1" "AC"
    (Some "broken AC unit") "Main St" "pending"
    (midnight 2024 3 1) (midnight 2024 3 1) (midnight 9999 12 31).

Definition last_day_world : world :=
  mkWorld [student; admin] [last_day_complaint] [] [] [] 0 8.

Definition orphan_world : world :=
  mkWorld [admin] [orphan] [] [] [] 0 10.

Definition empty_description_form : complaint_form :=
  form "Route 1" "" "2024-03-01".

Definition longer_description_form : complaint_form :=
  form "Route 1" "The broken AC unit again" "2024-03-01".

Definition other_route_form : complaint_form :=
  form "Route 2" "broken AC unit" "2024-03-01".

Definition admin_registration : register_form :=
  mkRegisterForm (Some "eve@x.com") (Some "pw") (Some "admin").

Definition requests : list request :=
  [SubmitComplaint student POST other_route_form;
   UpdateComplaintStatus admin (oid_of_nat 7) "resolved";
   UpdateComplaintStatus admin (oid_of_nat 8) "in review";
   SubmitComplaint student POST longer_description_form].

End Scenario.

(** ** The session and the remaining handlers *)

(** What [flask_login] keeps in the session: the id of the user who is
    logged in, if any. *)
Definition session := option string.

(** [User.get_id] *)
Definition get_id (u : user) : string := u_id u.

(** [load_user(user_id)]: the user record the session id stands for. *)
Definition load_user (E : environment) (uid : string) : M (option user) :=
  o <- lift (ObjectId E uid) ;;
  gets (fun w => find_user_by_id o (db_users w)).

Record login_form := mkLoginForm {
  l_email : option string;
  l_password : option string
}.

(** [login], over the verifier [check_password_hash(pwhash, password)].
    It answers with a page and the session it leaves. *)
Definition login
    (check_password_hash : string -> option string -> result bool)
    (method : http_method) (form : login_form) (s : session)
  : M (response * session) :=
  match method with
  | POST =>
      let email := l_email form in
      let password := l_password form in
      user_data <- gets (fun w => find_user_by_email email (db_users w)) ;;
      match user_data with
      | Some ud =>
          verified <- lift (check_password_hash (u_password ud) password) ;;
          if verified : bool then
            if option_eqb (u_role ud) (Some "admin")
            then ret (Redirect "admin_dashboard", Some (get_id ud))
            else ret (Redirect "dashboard", Some (get_id ud))
          else
            flash "Invalid email or password" "message" ;;
            ret (RenderTemplate "login.html", s)
      | None =>
          flash "Invalid email or password" "message" ;;
          ret (RenderTemplate "login.html", s)
      end
  | GET => ret (RenderTemplate "login.html", s)
  end.

(** [logout] *)
Definition logout (s : session) : M (response * session) :=
  ret (Redirect "home", None).

(** The answers of [dashboard]: a redirect, or [dashboard.html] with the
    complaints it lists. *)
Inductive dashboard_response :=
| DashboardRedirect (endpoint : string)
| RenderDashboard (complaints : list complaint).

Definition dashboard (current_user : user) : M dashboard_response :=
  if is_admin current_user then
    ret (DashboardRedirect "admin_dashboard")
  else
    user_complaints <-
      gets (fun w => filter (fun c => String.eqb (user_id c)
                                        (get_id current_user))
                       (db_complaints w)) ;;
    ret (RenderDashboard user_complaints).

(** What no handler changes in a stored complaint: everything but its
    status and the time of its last update. *)
Definition content (c : complaint)
  : oid * string * string * string * string * option string * string *
    datetime * datetime :=
  (c_id c, user_id c, student_id c, bus_route c, title c, description c,
   location c, created_at c, incident_date c).

(** The date of [data] is read as a day that complaint [c] is not on, or
    [c] is of another route than [data] asks about. *)
Definition off_query (E : environment) (data : duplicate_query)
    (c : complaint) : Prop :=
  Some (bus_route c) <> q_bus_route data \/
  (forall d, strptime E (q_incident_date data) = Ok d ->
             incident_date c < d \/ d + ms_per_day <= incident_date c).

(** The answer of the endpoint is JSON with status 200, or an error body
    with status 500. *)
Definition json_answer (r : result response) : Prop :=
  (exists duplicate message,
      r = Ok (Json (DuplicateBody duplicate message) 200)) \/
  (exists error, r = Ok (Json (ErrorBody error) 500)).

(** The two messages [update_complaint_status] flashes after an update. *)
Definition update_flash (sent : bool) : string * string :=
  if sent
  then ("Complaint status updated successfully. Notification email sent!",
        "message")
  else ("Complaint status updated successfully, but notification email could not be sent.",
        "message").

Definition delivered (r : result unit) : bool :=
  match r with Ok _ => true | Raise _ => false end.

Module Extra.
Import Sample.

(** A verifier for [hash_stub]. *)
Definition check_stub (pwhash : string) (password : option string)
  : result bool :=
  match password with
  | Some p => Ok (String.eqb pwhash ("hashed:" ++ p))
  | None =>
      Raise (Exception "AttributeError"
               "'NoneType' object has no attribute 'encode'")
  end.

Definition unreadable_date_form : complaint_form :=
  form "Route 1" "broken AC unit" "01/03/2024".

Definition other_day_complaint : complaint :=
  mkComplaint (oid_of_nat 5) (oid_of_nat 100) "S-17" "Route 1" "AC"
    (Some "broken AC unit") "Main St" "pending"
    (midnight 2024 3 2) (midnight 2024 3 2) (midnight 2024 3 2).

Definition route_one_query : duplicate_query :=
  mkDuplicateQuery (Some "Route 1") (Some "broken AC unit")
    (Some "2024-03-01").

Definition no_description_query : duplicate_query :=
  mkDuplicateQuery (Some "Route 1") None (Some "2024-03-01").

Definition student_registration : register_form :=
  mkRegisterForm (Some "bob@x.com") (Some "pw") (Some "student").

End Extra.

(** * Properties *)

(** ** Text *)

Lemma startswith_spec (a b : string) :
  startswith a b = true <-> exists post, b = a ++ post.
Proof.
  revert b; induction a as [|x a IH]; intros b; simpl.
  - split; [intros _; exists b; reflexivity | reflexivity].
  - destruct b as [|y b].
    + split; [discriminate | intros [post H]; discriminate].
    + rewrite andb_true_iff, Ascii.eqb_eq, IH. split.
      * intros [-> [post ->]]. exists post. reflexivity.
      * intros [post H]. injection H as -> ->. split; eauto.
Qed.

Lemma str_in_spec (a b : string) :
  str_in a b = true <-> substring_of a b.
Proof.
  unfold substring_of.
  induction b as [|y b IH]; simpl.
  - rewrite orb_false_r, startswith_spec. split.
    + intros [post H]. exists "", post. exact H.
    + intros [pre [post H]]. destruct pre; [|discriminate].
      exists post. exact H.
  - rewrite orb_true_iff, startswith_spec, IH. split.
    + intros [[post H] | [pre [post H]]].
      * exists "", post. exact H.
      * exists (String y pre), post. simpl. now rewrite H.
    + intros [pre [post H]]. destruct pre as [|z pre]; simpl in H.
      * left. exists post. exact H.
      * right. injection H as _ H. exists pre, post. exact H.
Qed.

Lemma similarb_spec (E : environment) (s : string) (c : complaint) :
  similarb E s c = true <-> similar E s (stored_description c).
Proof.
  unfold similarb, similar, existing_description, stored_description.
  now rewrite orb_true_iff, !str_in_spec.
Qed.

Lemma similar_sym (E : environment) (a b : string) :
  similar E a b <-> similar E b a.
Proof. unfold similar. tauto. Qed.

(** ** The two loops *)

Lemma check_duplicate_loop_spec (E : environment) (s : string)
    (cs : list complaint) :
  check_duplicate_loop E (Some s) cs = Ok (existsb (similarb E s) cs).
Proof.
  induction cs as [|c cs IH]; simpl; [reflexivity|].
  fold (similarb E s c). destruct (similarb E s c); [reflexivity | exact IH].
Qed.

Lemma loops_agree (E : environment) (description : option string)
    (cs : list complaint) :
  submit_complaint_loop E description cs =
  check_duplicate_loop E description cs.
Proof.
  induction cs as [|c cs IH]; simpl; [reflexivity|].
  destruct (lower_of E description); [|reflexivity].
  now rewrite IH.
Qed.

Lemma submit_complaint_loop_spec (E : environment) (s : string)
    (cs : list complaint) :
  submit_complaint_loop E (Some s) cs = Ok (existsb (similarb E s) cs).
Proof. rewrite loops_agree. apply check_duplicate_loop_spec. Qed.

Lemma matches_route_and_day_spec (r : string) (d : datetime) (c : complaint) :
  matches_route_and_day (Some r) d (d + 1 * ms_per_day) c = true <->
  bus_route c = r /\ d <= incident_date c /\ incident_date c < d + ms_per_day.
Proof.
  unfold matches_route_and_day; simpl option_eqb.
  rewrite !andb_true_iff, String.eqb_eq, Z.leb_le, Z.ltb_lt.
  replace (d + 1 * ms_per_day) with (d + ms_per_day) by lia. tauto.
Qed.

(** Some candidate of the query passes the test exactly when the store
    holds a duplicate. *)
Lemma candidates_spec (E : environment) (w : world) (r : string)
    (d : datetime) (s : string) :
  existsb (similarb E s)
    (find_complaints (Some r) d (d + 1 * ms_per_day) (db_complaints w)) = true
  <-> has_duplicate E w r d s.
Proof.
  unfold has_duplicate, duplicate_of, find_complaints.
  rewrite existsb_exists. split.
  - intros [c [Hin Hs]]. apply filter_In in Hin as [Hin Hm].
    apply matches_route_and_day_spec in Hm. apply similarb_spec in Hs.
    exists c. tauto.
  - intros [c [Hin [Hr [Hd Hs]]]]. exists c. split.
    + apply filter_In. split; [exact Hin|].
      apply matches_route_and_day_spec. tauto.
    + now apply similarb_spec.
Qed.

(** ** Running the handlers *)

Ltac run_monad :=
  unfold bind, ret, lift, gets, modify, flash, print, try_except;
  simpl.

(** The endpoint never writes; its answer is decided by the parser, the
    day arithmetic and the loop. *)
Lemma check_duplicate_complaint_run (E : environment) (data : duplicate_query)
    (w : world) :
  check_duplicate_complaint E (JsonObject data) w =
  (match strptime E (q_incident_date data) with
   | Raise e => Ok (Json (ErrorBody (exn_text e)) 500)
   | Ok d =>
       match add_days d 1 with
       | Raise e => Ok (Json (ErrorBody (exn_text e)) 500)
       | Ok next_day =>
           match check_duplicate_loop E (q_description data)
                   (find_complaints (q_bus_route data) d next_day
                      (db_complaints w)) with
           | Raise e => Ok (Json (ErrorBody (exn_text e)) 500)
           | Ok true =>
               Ok (Json (DuplicateBody true
                           (Some "A similar complaint has already been submitted."))
                     200)
           | Ok false => Ok (Json (DuplicateBody false None) 200)
           end
       end
   end, w).
Proof.
  unfold check_duplicate_complaint. run_monad.
  destruct (strptime E (q_incident_date data)) as [d|e]; [|reflexivity].
  destruct (add_days d 1) as [nd|e]; [|reflexivity].
  destruct (check_duplicate_loop _ _ _) as [[|]|e]; reflexivity.
Qed.

(** A body that is not an object: the first [data.get] raises, outside
    the [try]. *)
Lemma check_duplicate_complaint_not_object (E : environment)
    (type_name : string) (w : world) :
  check_duplicate_complaint E (JsonOther type_name) w =
  (Raise (Exception "AttributeError"
            ("'" ++ type_name ++ "' object has no attribute 'get'")), w).
Proof. reflexivity. Qed.

Lemma check_duplicate_complaint_world (E : environment) (data : json_data)
    (w : world) :
  snd (check_duplicate_complaint E data w) = w.
Proof.
  destruct data as [fields | type_name]; [|reflexivity].
  now rewrite check_duplicate_complaint_run.
Qed.

Lemma truthy_false (v : option string) :
  truthy v = false <-> missing_or_empty v.
Proof.
  unfold missing_or_empty. destruct v as [s|]; simpl.
  - rewrite negb_false_iff, String.eqb_eq. split.
    + intros ->. now right.
    + intros [H|H]; [discriminate | now injection H].
  - split; [now left | reflexivity].
Qed.

Lemma truthy_text (v : option string) : truthy v = true -> v = Some (text v).
Proof. destruct v; [reflexivity | discriminate]. Qed.

Lemma required_fields_valid (form : complaint_form) :
  forallb truthy (required_fields form) = true <->
  Forall (fun v => ~ missing_or_empty v) (required_fields form).
Proof.
  rewrite forallb_forall, Forall_forall.
  split; intros H v Hin; specialize (H v Hin).
  - rewrite <- truthy_false. congruence.
  - rewrite <- truthy_false in H. now destruct (truthy v).
Qed.

(** A form without a required field is turned away before anything
    else happens. *)
Lemma submit_complaint_invalid (E : environment) (u : user)
    (form : complaint_form) (w : world) :
  forallb truthy (required_fields form) = false ->
  submit_complaint E u POST form w = validation_error w.
Proof.
  intros H. unfold submit_complaint, required_fields in *.
  rewrite H. reflexivity.
Qed.

(** A form with all its fields: what [submit_complaint] does is decided
    by the parser, the day arithmetic and the loop. *)
Lemma submit_complaint_valid (E : environment) (u : user)
    (form : complaint_form) (w : world) :
  forallb truthy (required_fields form) = true ->
  submit_complaint E u POST form w =
  match strptime E (f_incident_date form) with
  | Raise e =>
      (Ok (Redirect "submit_complaint"),
       add_flash ("Error submitting complaint: " ++ exn_text e, "error") w)
  | Ok d =>
      match add_days d 1 with
      | Raise e =>
          (Ok (Redirect "submit_complaint"),
           add_flash ("Error submitting complaint: " ++ exn_text e, "error") w)
      | Ok next_day =>
          match submit_complaint_loop E (f_description form)
                  (find_complaints (f_bus_route form) d next_day
                     (db_complaints w)) with
          | Raise e =>
              (Ok (Redirect "submit_complaint"),
               add_flash ("Error submitting complaint: " ++ exn_text e,
                          "error") w)
          | Ok true => duplicate_rejected w
          | Ok false =>
              let stored :=
                set_complaints (db_complaints w ++ [submitted E u form d w])
                  (next_id (tick (tick w))) in
              let msg :=
                mkMessage "Complaint Submission Confirmation" [u_email u]
                  (ConfirmationTemplate (u_email u) (text (f_title form))
                     (text (f_bus_route form)) (text (f_location form)) d) in
              match mail_send E msg with
              | Ok _ =>
                  (Ok (Redirect "dashboard"),
                   add_flash
                     ("Complaint submitted successfully. Confirmation email sent!",
                      "success")
                     (add_mail_attempt msg stored))
              | Raise e =>
                  (Ok (Redirect "dashboard"),
                   add_flash
                     ("Complaint submitted successfully, but confirmation email could not be sent.",
                      "warning")
                     (add_stdout ("Error sending email: " ++ exn_text e)
                        (add_mail_attempt msg stored)))
              end
          end
      end
  end.
Proof.
  intros H. unfold submit_complaint, required_fields in *.
  rewrite H. simpl negb. cbv iota. run_monad.
  destruct (strptime E (f_incident_date form)) as [d|e]; [|reflexivity].
  destruct (add_days d 1) as [nd|e]; [|reflexivity].
  destruct (submit_complaint_loop _ _ _) as [[|]|e]; try reflexivity.
  unfold utcnow, insert_complaint, generate_id, send_email, mail_send_message.
  run_monad.
  destruct (mail_send E _) as [[]|e]; reflexivity.
Qed.

Lemma add_days_one (d next_day : datetime) :
  add_days d 1 = Ok next_day -> next_day = d + 1 * ms_per_day.
Proof.
  unfold add_days. destruct (in_range _); [|discriminate].
  now intros [= <-].
Qed.

Lemma add_days_in_range (d : datetime) :
  0 <= d -> d + ms_per_day <= datetime_max ->
  add_days d 1 = Ok (d + 1 * ms_per_day).
Proof.
  intros H0 H1. unfold add_days, in_range.
  replace (0 <=? d + 1 * ms_per_day) with true
    by (symmetry; apply Z.leb_le; unfold ms_per_day in *; lia).
  replace (d + 1 * ms_per_day <=? datetime_max) with true
    by (symmetry; apply Z.leb_le; lia).
  reflexivity.
Qed.

(** ** Validation and duplicate rejection on the submit path *)

(** C4: a submit request in which one of the six required fields
    (student id, bus route, title, description, location, incident
    date) is missing or empty is answered with the validation error
    (the message "All fields are required" and a redirect back to the
    form) and writes nothing: the world differs from the one before only
    by the flashed message, so both collections are unchanged. *)
Theorem submit_missing_field_rejected (E : environment) (u : user)
    (form : complaint_form) (w : world) (v : option string) :
  In v (required_fields form) -> missing_or_empty v ->
  submit_complaint E u POST form w = validation_error w /\
  db_complaints (snd (submit_complaint E u POST form w)) = db_complaints w /\
  db_users (snd (submit_complaint E u POST form w)) = db_users w.
Proof.
  intros Hin Hv.
  assert (H : forallb truthy (required_fields form) = false).
  { destruct (forallb truthy (required_fields form)) eqn:Hall;
      [|reflexivity].
    rewrite forallb_forall in Hall. apply truthy_false in Hv.
    rewrite (Hall v Hin) in Hv. discriminate. }
  rewrite (submit_complaint_invalid E u form w H). now split.
Qed.

Lemma submit_missing_field_rejected_witness :
  In (Some "") (required_fields Scenario.empty_description_form) /\
  missing_or_empty (Some "") /\
  submit_complaint Sample.env Sample.student POST
    Scenario.empty_description_form Sample.one_complaint =
  validation_error Sample.one_complaint.
Proof.
  assert (Hin : In (Some "")
                  (required_fields Scenario.empty_description_form))
    by (simpl; tauto).
  assert (Hv : missing_or_empty (Some "")) by (now right).
  split; [exact Hin|]. split; [exact Hv|].
  exact (proj1 (submit_missing_field_rejected Sample.env Sample.student
                  Scenario.empty_description_form Sample.one_complaint
                  (Some "") Hin Hv)).
Defined.

(** C5: a submit request with all its fields whose inputs are judged a
    duplicate of a stored complaint is rejected (the warning is flashed
    and the caller is sent back to the form) and nothing is persisted:
    the world differs only by the flashed warning, so the complaint
    store is unchanged. *)
Theorem submit_duplicate_not_persisted (E : environment) (u : user)
    (form : complaint_form) (w : world) :
  Forall (fun v => ~ missing_or_empty v) (required_fields form) ->
  judged_duplicate E form w ->
  submit_complaint E u POST form w = duplicate_rejected w /\
  db_complaints (snd (submit_complaint E u POST form w)) = db_complaints w.
Proof.
  intros Hvalid [d [nd [Hd [Hnd Hdup]]]].
  apply required_fields_valid in Hvalid.
  rewrite (submit_complaint_valid E u form w Hvalid), Hd, Hnd.
  assert (Hr : f_bus_route form = Some (text (f_bus_route form))).
  { apply truthy_text. rewrite forallb_forall in Hvalid.
    apply Hvalid. simpl; tauto. }
  assert (Hs : f_description form = Some (text (f_description form))).
  { apply truthy_text. rewrite forallb_forall in Hvalid.
    apply Hvalid. simpl; tauto. }
  rewrite Hr, Hs, submit_complaint_loop_spec.
  rewrite (add_days_one _ _ Hnd).
  apply candidates_spec in Hdup. rewrite Hdup. now split.
Qed.

Lemma submit_duplicate_not_persisted_witness :
  submit_complaint Sample.env Sample.student POST
    Scenario.longer_description_form Sample.one_complaint =
  duplicate_rejected Sample.one_complaint.
Proof.
  refine (proj1 (submit_duplicate_not_persisted Sample.env Sample.student
                   Scenario.longer_description_form Sample.one_complaint
                   _ _)).
  - apply required_fields_valid. reflexivity.
  - exists (midnight 2024 3 1), (midnight 2024 3 1 + 1 * ms_per_day).
    split; [reflexivity|]. split; [reflexivity|].
    apply candidates_spec. reflexivity.
Defined.

(** ** Status updates *)

Lemma option_eqb_eq (a b : option string) : option_eqb a b = true <-> a = b.
Proof.
  destruct a as [x|], b as [y|]; simpl; try (split; congruence).
  rewrite String.eqb_eq. split; congruence.
Qed.

Lemma is_admin_spec (u : user) : is_admin u = true <-> u_role u = Some "admin".
Proof. apply option_eqb_eq. Qed.

Lemma find_one_and_update_absent (o : oid) (st : string) (now : datetime)
    (cs : list complaint) :
  (forall c, In c cs -> c_id c <> o) ->
  find_one_and_update o st now cs = (None, cs).
Proof.
  induction cs as [|c cs IH]; intros H; simpl; [reflexivity|].
  destruct (String.eqb (c_id c) o) eqn:Heq.
  - apply String.eqb_eq in Heq. exfalso. apply (H c); simpl; auto.
  - rewrite IH; [reflexivity|]. intros c' Hin. apply H. simpl; auto.
Qed.

(** What a request for a status update does to the world, whatever its
    answer: the users are left alone, the clock is only read, and the
    complaints are those [find_one_and_update] leaves when the caller is
    an admin and the id is well formed. *)
Lemma update_complaint_status_effect (E : environment) (u : user)
    (complaint_id st : string) (w : world) :
  let w' := snd (update_complaint_status E u complaint_id st w) in
  db_users w' = db_users w /\
  (clock_reads w <= clock_reads w')%nat /\
  db_complaints w' =
  if is_admin u then
    match ObjectId E complaint_id with
    | Ok o =>
        snd (find_one_and_update o st (utcnow_at E (clock_reads w))
               (db_complaints w))
    | Raise _ => db_complaints w
    end
  else db_complaints w.
Proof.
  unfold update_complaint_status.
  destruct (is_admin u); simpl negb; cbv iota; [|simpl; auto].
  unfold utcnow. run_monad.
  destruct (ObjectId E complaint_id) as [o|e]; [|simpl; auto].
  destruct (find_one_and_update o st _ (db_complaints w)) as [[c|] cs];
    simpl; [|auto].
  destruct (ObjectId E (user_id c)) as [owner|e]; simpl; [|auto].
  destruct (find_user_by_id owner (db_users w)) as [usr|]; simpl; [|auto].
  unfold send_email, mail_send_message. run_monad.
  destruct (mail_send E _) as [[]|e]; simpl; auto.
Qed.

Lemma update_complaint_status_store (E : environment) (u : user)
    (complaint_id st : string) (o : oid) (w : world) :
  is_admin u = true -> ObjectId E complaint_id = Ok o ->
  db_complaints (snd (update_complaint_status E u complaint_id st w)) =
  snd (find_one_and_update o st (utcnow_at E (clock_reads w))
         (db_complaints w)).
Proof.
  intros Ha Ho.
  destruct (update_complaint_status_effect E u complaint_id st w)
    as [_ [_ H]].
  now rewrite H, Ha, Ho.
Qed.

(** C6: for a caller whose role is not admin, [update_complaint_status]
    answers Unauthorized (the message "Unauthorized access" and a
    redirect to the caller's own dashboard) and leaves every complaint
    as it was: the world differs only by the flashed message. *)
Theorem update_by_non_admin_unauthorized (E : environment) (u : user)
    (complaint_id st : string) (w : world) :
  u_role u <> Some "admin" ->
  update_complaint_status E u complaint_id st w = unauthorized w /\
  db_complaints (snd (update_complaint_status E u complaint_id st w)) =
  db_complaints w.
Proof.
  intros Hrole.
  assert (Ha : is_admin u = false).
  { destruct (is_admin u) eqn:H; [|reflexivity].
    apply is_admin_spec in H. contradiction. }
  unfold update_complaint_status. rewrite Ha. now split.
Qed.

Lemma update_by_non_admin_unauthorized_witness :
  u_role Sample.student <> Some "admin" /\
  update_complaint_status Sample.env Sample.student (Sample.oid_of_nat 7)
    "resolved" Sample.one_complaint =
  unauthorized Sample.one_complaint.
Proof.
  assert (H : u_role Sample.student <> Some "admin") by discriminate.
  split; [exact H|].
  exact (proj1 (update_by_non_admin_unauthorized Sample.env Sample.student
                  (Sample.oid_of_nat 7) "resolved" Sample.one_complaint H)).
Defined.

(** C7, as the code has it: for an admin and an id that names no stored
    complaint, [update_complaint_status] changes nothing in either
    collection, flashes no message and attempts no mail.  When the id is
    well formed it reads the clock once and redirects to the admin
    dashboard, which is also its answer after an update; when
    [ObjectId] refuses the id, that exception leaves the handler. *)
Theorem update_of_absent_complaint_is_silent (E : environment) (u : user)
    (complaint_id st : string) (w : world) :
  u_role u = Some "admin" ->
  ~ present E complaint_id w ->
  update_complaint_status E u complaint_id st w =
  match ObjectId E complaint_id with
  | Ok _ => (Ok (Redirect "admin_dashboard"), tick w)
  | Raise e => (Raise e, w)
  end.
Proof.
  intros Hrole Habsent. apply is_admin_spec in Hrole.
  unfold update_complaint_status. rewrite Hrole. simpl negb. cbv iota.
  unfold utcnow. run_monad.
  destruct (ObjectId E complaint_id) as [o|e] eqn:Ho; [|reflexivity].
  rewrite (find_one_and_update_absent o st).
  - simpl. destruct w; reflexivity.
  - intros c Hin Hc. apply Habsent. now exists o, c.
Qed.

Lemma update_of_absent_complaint_is_silent_witness :
  u_role Sample.admin = Some "admin" /\
  ~ present Sample.env (Sample.oid_of_nat 10) Scenario.orphan_world /\
  update_complaint_status Sample.env Sample.admin (Sample.oid_of_nat 10)
    "resolved" Scenario.orphan_world =
  (Ok (Redirect "admin_dashboard"), tick Scenario.orphan_world).
Proof.
  assert (Habsent : ~ present Sample.env (Sample.oid_of_nat 10)
                      Scenario.orphan_world).
  { intros [o [c [Ho [[<-|[]] Hc]]]].
    vm_compute in Ho. injection Ho as <-. discriminate. }
  split; [reflexivity|]. split; [exact Habsent|].
  exact (update_of_absent_complaint_is_silent Sample.env Sample.admin
           (Sample.oid_of_nat 10) "resolved" Scenario.orphan_world
           eq_refl Habsent).
Defined.

(** C7, as stated, fails: no outcome of [update_complaint_status] is
    kept for ids that name no complaint.  On the same store an admin
    gets the same answer, with no message and no mail, for an id that
    names nothing and for the id of a complaint whose owner has no user
    record. *)
Lemma update_has_no_not_found_outcome :
  ~ exists NotFound : observation -> Prop, signals_not_found NotFound.
Proof.
  intros [NotFound [Habsent Hpresent]].
  apply (Hpresent Sample.env Sample.admin (Sample.oid_of_nat 9) "resolved"
           Scenario.orphan_world).
  - reflexivity.
  - exists (Sample.oid_of_nat 9), orphan. repeat split. simpl; auto.
  - change (observe
              (update_complaint_status Sample.env Sample.admin
                 (Sample.oid_of_nat 9) "resolved" Scenario.orphan_world))
      with (observe
              (update_complaint_status Sample.env Sample.admin
                 (Sample.oid_of_nat 10) "resolved" Scenario.orphan_world)).
    apply Habsent; [reflexivity|].
    intros [o [c [Ho [[<-|[]] Hc]]]].
    vm_compute in Ho. injection Ho as <-. discriminate.
Qed.

(** ** The duplicate rule *)

Lemma reports_duplicate_iff (b : bool) (message : option string) :
  reports_duplicate (Ok (Json (DuplicateBody b message) 200)) <-> b = true.
Proof.
  unfold reports_duplicate. split.
  - intros [m H]. now injection H.
  - intros ->. now exists message.
Qed.

Lemma error_reports_no_duplicate (t : string) :
  ~ reports_duplicate (Ok (Json (ErrorBody t) 500)).
Proof. intros [m H]. discriminate. Qed.

(** The answer of the endpoint to a query with a route, a description
    and a date that is read as a day with a next day. *)
Lemma check_duplicate_complaint_answer (E : environment) (w : world)
    (r ds s : string) (d : datetime) :
  strptime E (Some ds) = Ok d ->
  0 <= d -> d + ms_per_day <= datetime_max ->
  fst (check_duplicate_complaint E
         (JsonObject (mkDuplicateQuery (Some r) (Some s) (Some ds))) w) =
  if existsb (similarb E s)
       (find_complaints (Some r) d (d + 1 * ms_per_day) (db_complaints w))
  then Ok (Json (DuplicateBody true
                   (Some "A similar complaint has already been submitted."))
             200)
  else Ok (Json (DuplicateBody false None) 200).
Proof.
  intros Hd H0 H1. rewrite check_duplicate_complaint_run. simpl.
  rewrite Hd, (add_days_in_range d H0 H1), check_duplicate_loop_spec.
  now destruct (existsb _ _).
Qed.

Lemma similarb_lower (E : environment) (s s' : string) (c : complaint) :
  lower E s' = lower E s -> similarb E s' c = similarb E s c.
Proof. intros H. unfold similarb. now rewrite H. Qed.

Lemma similarb_stored_lower (E : environment) (s s1 s2 : string)
    (c : complaint) :
  lower E s1 = lower E s2 ->
  similarb E s (with_description s1 c) = similarb E s (with_description s2 c).
Proof.
  intros H. unfold similarb, existing_description. simpl. now rewrite H.
Qed.

Lemma matches_with_description (r : option string) (lo hi : datetime)
    (s : string) (c : complaint) :
  matches_route_and_day r lo hi (with_description s c) =
  matches_route_and_day r lo hi c.
Proof. reflexivity. Qed.

Lemma existsb_pointwise {A} (f g : A -> bool) (l : list A) :
  (forall x, f x = g x) -> existsb f l = existsb g l.
Proof.
  intros H. induction l as [|x l IH]; simpl; [reflexivity|].
  now rewrite H, IH.
Qed.

(** C1, as the code has it: for every route [r], every description [s]
    and every date that is read as a day [d] other than the last day a
    datetime can hold (so that [d + 1 day] exists), the duplicate check
    reports a duplicate if and only if some stored complaint has bus
    route [r], an incident date in [[d, d + 1 day)] and a description
    that, after lowercasing both with [str.lower()], contains [s] or is
    contained in [s]; it answers "no duplicate" when no stored complaint
    passes that test; the decision is the same when the stored and the
    new description change places; and it depends on the two
    descriptions through their lowercase forms only: a new description,
    or a stored one, can be replaced by any text with the same lowercase
    form without changing the answer. *)
Theorem duplicate_check_rule (E : environment) (w : world)
    (r ds s : string) (d : datetime) :
  strptime E (Some ds) = Ok d ->
  0 <= d -> d + ms_per_day <= datetime_max ->
  duplicate_rule E w r ds d s /\
  (~ has_duplicate E w r d s ->
   reports_no_duplicate
     (fst (check_duplicate_complaint E
             (JsonObject (mkDuplicateQuery (Some r) (Some s) (Some ds))) w))) /\
  (forall c s',
      fst (check_duplicate_complaint E
             (JsonObject (mkDuplicateQuery (Some r) (Some s) (Some ds)))
             (set_complaints [with_description s' c] w)) =
      fst (check_duplicate_complaint E
             (JsonObject (mkDuplicateQuery (Some r) (Some s') (Some ds)))
             (set_complaints [with_description s c] w))) /\
  (forall s',
      lower E s' = lower E s ->
      fst (check_duplicate_complaint E
             (JsonObject (mkDuplicateQuery (Some r) (Some s') (Some ds))) w) =
      fst (check_duplicate_complaint E
             (JsonObject (mkDuplicateQuery (Some r) (Some s) (Some ds))) w)) /\
  (forall pre post c s1 s2,
      lower E s1 = lower E s2 ->
      fst (check_duplicate_complaint E
             (JsonObject (mkDuplicateQuery (Some r) (Some s) (Some ds)))
             (set_complaints (pre ++ with_description s1 c :: post) w)) =
      fst (check_duplicate_complaint E
             (JsonObject (mkDuplicateQuery (Some r) (Some s) (Some ds)))
             (set_complaints (pre ++ with_description s2 c :: post) w))).
Proof.
  intros Hd H0 H1. unfold duplicate_rule, reports_no_duplicate.
  split; [|split; [|split; [|split]]].
  - rewrite (check_duplicate_complaint_answer E w r ds s d Hd H0 H1).
    rewrite <- candidates_spec.
    destruct (existsb _ _); [rewrite reports_duplicate_iff | ]; try tauto.
    rewrite reports_duplicate_iff. tauto.
  - intros Hno.
    rewrite (check_duplicate_complaint_answer E w r ds s d Hd H0 H1).
    rewrite <- candidates_spec in Hno.
    destruct (existsb _ _); [now elim Hno | reflexivity].
  - intros c s'.
    rewrite !(check_duplicate_complaint_answer E _ r ds _ d Hd H0 H1).
    simpl. unfold matches_route_and_day. simpl.
    destruct (_ && _ && _); simpl; [|reflexivity].
    unfold similarb, existing_description. simpl.
    rewrite !orb_false_r.
    now rewrite (orb_comm (str_in (lower E s) (lower E s'))).
  - intros s' Hs'.
    rewrite !(check_duplicate_complaint_answer E w r ds _ d Hd H0 H1).
    rewrite (existsb_pointwise (similarb E s') (similarb E s));
      [reflexivity|].
    intros c. now apply similarb_lower.
  - intros pre post c s1 s2 Hs.
    rewrite !(check_duplicate_complaint_answer E _ r ds s d Hd H0 H1).
    cbn [db_complaints set_complaints]. unfold find_complaints.
    rewrite !filter_app, !existsb_app. cbn [filter].
    rewrite (matches_with_description (Some r) d (d + 1 * ms_per_day) s1 c).
    rewrite (matches_with_description (Some r) d (d + 1 * ms_per_day) s2 c).
    destruct (matches_route_and_day (Some r) d (d + 1 * ms_per_day) c);
      [|reflexivity].
    cbn [existsb].
    now rewrite (similarb_stored_lower E s s1 s2 c Hs).
Qed.

Lemma duplicate_check_rule_witness :
  strptime Sample.env (Some "2024-03-01") = Ok (midnight 2024 3 1) /\
  0 <= midnight 2024 3 1 /\
  midnight 2024 3 1 + ms_per_day <= datetime_max /\
  duplicate_rule Sample.env Sample.one_complaint "Route 1" "2024-03-01"
    (midnight 2024 3 1) "THE BROKEN ac UNIT AGAIN" /\
  reports_duplicate
    (fst (check_duplicate_complaint Sample.env
            (JsonObject (mkDuplicateQuery (Some "Route 1")
                           (Some "THE BROKEN ac UNIT AGAIN")
                           (Some "2024-03-01")))
            Sample.one_complaint)).
Proof.
  assert (H0 : 0 <= midnight 2024 3 1) by (vm_compute; discriminate).
  assert (H1 : midnight 2024 3 1 + ms_per_day <= datetime_max)
    by (vm_compute; discriminate).
  assert (Hrule := proj1 (duplicate_check_rule Sample.env Sample.one_complaint
                            "Route 1" "2024-03-01" "THE BROKEN ac UNIT AGAIN"
                            (midnight 2024 3 1) eq_refl H0 H1)).
  split; [reflexivity|]. split; [exact H0|]. split; [exact H1|].
  split; [exact Hrule|].
  apply Hrule. exists Sample.broken_ac. split; [simpl; auto|].
  split; [reflexivity|]. split.
  - split; vm_compute; [discriminate | reflexivity].
  - right. apply str_in_spec. reflexivity.
Defined.

(** C1, as stated, fails on the last day a datetime can hold: the store
    holds a complaint of route 1 dated 9999-12-31 with the very
    description that is asked about, yet the check for that route, day
    and description answers with an error, because adding one day to
    9999-12-31 overflows. *)
Lemma duplicate_rule_fails_on_last_day :
  strptime Sample.env (Some "9999-12-31") = Ok (midnight 9999 12 31) /\
  ~ duplicate_rule Sample.env Scenario.last_day_world "Route 1" "9999-12-31"
      (midnight 9999 12 31) "broken AC unit".
Proof.
  split; [reflexivity|]. intros [_ H].
  assert (Hdup : has_duplicate Sample.env Scenario.last_day_world "Route 1"
                   (midnight 9999 12 31) "broken AC unit").
  { exists Scenario.last_day_complaint. split; [simpl; auto|].
    split; [reflexivity|]. split.
    - split; vm_compute; [discriminate | reflexivity].
    - left. apply str_in_spec. reflexivity. }
  specialize (H Hdup). revert H.
  apply error_reports_no_duplicate.
Qed.

(** On the endpoint the empty description matches every candidate: as
    the lowercase form of [''] is [''], it is reported a duplicate as
    soon as the store holds any complaint of that route and day,
    whatever that complaint says. *)
Lemma empty_description_matches_every_candidate (E : environment)
    (w : world) (r ds : string) (d : datetime) :
  lower E "" = "" ->
  strptime E (Some ds) = Ok d ->
  0 <= d -> d + ms_per_day <= datetime_max ->
  reports_duplicate
    (fst (check_duplicate_complaint E
            (JsonObject (mkDuplicateQuery (Some r) (Some "") (Some ds))) w))
  <-> exists c,
      In c (db_complaints w) /\ bus_route c = r /\
      d <= incident_date c /\ incident_date c < d + ms_per_day.
Proof.
  intros Hempty Hd H0 H1.
  rewrite (check_duplicate_complaint_answer E w r ds "" d Hd H0 H1).
  transitivity (has_duplicate E w r d "").
  - rewrite <- candidates_spec.
    destruct (existsb _ _); rewrite reports_duplicate_iff; tauto.
  - unfold has_duplicate, duplicate_of.
    split; intros [c H]; exists c; [tauto|].
    repeat split; try tauto.
    left. rewrite Hempty.
    exists "", (lower E (stored_description c)). reflexivity.
Qed.

(** C2 fails on the endpoint: asked about route 1 on 2024-03-01 with the
    empty description, against a store that holds one complaint for that
    route and day, [check_duplicate_complaint] reports a duplicate,
    since [''] is contained in every description.  The submit path turns
    the same input away at validation. *)
Theorem empty_description_reported_duplicate :
  fst (check_duplicate_complaint Sample.env
         (JsonObject (query_of Scenario.empty_description_form)) Sample.one_complaint) =
  Ok (Json (DuplicateBody true
              (Some "A similar complaint has already been submitted."))
        200) /\
  submit_complaint Sample.env Sample.student POST
    Scenario.empty_description_form Sample.one_complaint =
  validation_error Sample.one_complaint.
Proof. split; reflexivity. Qed.

(** ** The endpoint against the submit path *)

Lemma error_is_not_duplicate_rejection (t : string) (w : world) :
  (Ok (Redirect "submit_complaint"),
   add_flash ("Error submitting complaint: " ++ t, "error") w) <>
  duplicate_rejected w.
Proof.
  unfold duplicate_rejected, duplicate_warning. intros H.
  apply (f_equal (fun out => flashes (snd out))) in H. simpl in H.
  apply app_inv_head in H. discriminate.
Qed.

Lemma grown_list_differs {A} (l : list A) (x : A) : l <> (l ++ [x])%list.
Proof.
  intros H. apply (f_equal (@List.length A)) in H.
  rewrite length_app in H. simpl in H. lia.
Qed.

(** C3, as the code has it: for every store and every form whose six
    required fields are present and non-empty, the endpoint reports a
    duplicate for the route, description and date of the form exactly
    when [submit_complaint] rejects the form as a duplicate, and it
    reports "no duplicate" exactly when [submit_complaint] stores a new
    complaint. *)
Theorem endpoint_agrees_with_submit (E : environment) (u : user)
    (form : complaint_form) (w : world) :
  Forall (fun v => ~ missing_or_empty v) (required_fields form) ->
  same_decision E u form w /\
  (reports_no_duplicate
     (fst (check_duplicate_complaint E (JsonObject (query_of form)) w))
   <-> exists c,
       db_complaints (snd (submit_complaint E u POST form w)) =
       (db_complaints w ++ [c])%list).
Proof.
  intros Hvalid. apply required_fields_valid in Hvalid.
  unfold same_decision, reports_no_duplicate.
  rewrite check_duplicate_complaint_run.
  rewrite (submit_complaint_valid E u form w Hvalid).
  unfold query_of; simpl.
  destruct (strptime E (f_incident_date form)) as [d|e].
  2:{ split; split; intros H; try discriminate.
      - now apply error_reports_no_duplicate in H.
      - now apply error_is_not_duplicate_rejection in H.
      - destruct H as [c H]. now apply grown_list_differs in H. }
  destruct (add_days d 1) as [nd|e].
  2:{ split; split; intros H; try discriminate.
      - now apply error_reports_no_duplicate in H.
      - now apply error_is_not_duplicate_rejection in H.
      - destruct H as [c H]. now apply grown_list_differs in H. }
  generalize (loops_agree E (f_description form)
                (find_complaints (f_bus_route form) d nd (db_complaints w))).
  destruct (submit_complaint_loop _ _ _) as [[|]|e]; intros <-.
  - split; split; intros H; try discriminate.
    + reflexivity.
    + now apply reports_duplicate_iff.
    + destruct H as [c H]. now apply grown_list_differs in H.
  - split; split; intros H.
    + now apply reports_duplicate_iff in H.
    + destruct (mail_send E _); discriminate.
    + eexists. destruct (mail_send E _) as [[]|e]; reflexivity.
    + reflexivity.
  - split; split; intros H; try discriminate.
    + now apply error_reports_no_duplicate in H.
    + now apply error_is_not_duplicate_rejection in H.
    + destruct H as [c H]. now apply grown_list_differs in H.
Qed.

Lemma endpoint_agrees_with_submit_witness :
  Forall (fun v => ~ missing_or_empty v)
    (required_fields Scenario.longer_description_form) /\
  same_decision Sample.env Sample.student Scenario.longer_description_form
    Sample.one_complaint.
Proof.
  assert (H : Forall (fun v => ~ missing_or_empty v)
                (required_fields Scenario.longer_description_form))
    by (apply required_fields_valid; reflexivity).
  split; [exact H|].
  exact (proj1 (endpoint_agrees_with_submit Sample.env Sample.student
                  Scenario.longer_description_form Sample.one_complaint H)).
Defined.

(** C3, as stated, fails on the empty description: for route 1 on
    2024-03-01 the endpoint reports a duplicate, while the submit path,
    given the same route, description and date in an otherwise complete
    form, does not reject the form as a duplicate. *)
Lemma endpoint_differs_from_submit :
  ~ same_decision Sample.env Sample.student Scenario.empty_description_form
      Sample.one_complaint.
Proof.
  intros [H _].
  assert (Hrep : reports_duplicate
                   (fst (check_duplicate_complaint Sample.env
                           (JsonObject (query_of Scenario.empty_description_form))
                           Sample.one_complaint))).
  { eexists. reflexivity. }
  specialize (H Hrep).
  change (validation_error Sample.one_complaint =
          duplicate_rejected Sample.one_complaint) in H.
  apply (f_equal (fun out => flashes (snd out))) in H.
  vm_compute in H. discriminate.
Qed.

(** ** Notifications *)

Lemma send_email_run (E : environment) (subj : string)
    (recipient : option string) (body : template) (w : world) :
  send_email E subj recipient body w =
  match mail_send E (mkMessage subj [recipient] body) with
  | Ok _ => (Ok true, add_mail_attempt (mkMessage subj [recipient] body) w)
  | Raise e =>
      (Ok false,
       add_stdout ("Error sending email: " ++ exn_text e)
         (add_mail_attempt (mkMessage subj [recipient] body) w))
  end.
Proof.
  unfold send_email, mail_send_message. run_monad.
  destruct (mail_send E _) as [[]|e]; reflexivity.
Qed.

(** What a submission does to the store and to the clock: nothing, or
    one complaint more after two readings of the clock. *)
Lemma submit_complaint_effect (E : environment) (u : user)
    (method : http_method) (form : complaint_form) (w : world) :
  let w' := snd (submit_complaint E u method form w) in
  db_users w' = db_users w /\
  ((db_complaints w' = db_complaints w /\ clock_reads w' = clock_reads w) \/
   (exists d,
       strptime E (f_incident_date form) = Ok d /\
       db_complaints w' = (db_complaints w ++ [submitted E u form d w])%list /\
       clock_reads w' = S (S (clock_reads w)))).
Proof.
  destruct method; [simpl; auto|].
  destruct (forallb truthy (required_fields form)) eqn:Hvalid.
  2:{ rewrite (submit_complaint_invalid E u form w Hvalid). simpl; auto. }
  rewrite (submit_complaint_valid E u form w Hvalid).
  destruct (strptime E (f_incident_date form)) as [d|e]; [|simpl; auto].
  destruct (add_days d 1) as [nd|e]; [|simpl; auto].
  destruct (submit_complaint_loop _ _ _) as [[|]|e]; try (simpl; auto).
  destruct (mail_send E _) as [[]|e]; simpl; split; auto;
    right; exists d; auto.
Qed.





(** ** Timestamps *)

Lemma monotone_clock_le (E : environment) :
  monotone_clock E ->
  forall n m, (n <= m)%nat -> utcnow_at E n <= utcnow_at E m.
Proof.
  intros Hmono n m Hle. induction Hle as [|m Hle IH]; [lia|].
  specialize (Hmono m). lia.
Qed.

Lemma register_effect (E : environment) (method : http_method)
    (form : register_form) (w : world) :
  let w' := snd (register E method form w) in
  db_complaints w' = db_complaints w /\
  (clock_reads w <= clock_reads w')%nat.
Proof.
  destruct method; [simpl; auto|].
  unfold register. run_monad.
  destruct (find_user_by_email _ _); [simpl; auto|].
  destruct (generate_password_hash E _) as [h|e]; [|simpl; auto].
  unfold utcnow, insert_user, generate_id. run_monad.
  rewrite send_email_run.
  destruct (mail_send E _) as [[]|e]; simpl; auto.
Qed.

Lemma find_one_and_update_consistent (o : oid) (st : string)
    (now : datetime) (cs : list complaint) :
  Forall (fun c => well_timed c /\ created_at c <= now) cs ->
  Forall (fun c => well_timed c /\ created_at c <= now)
    (snd (find_one_and_update o st now cs)).
Proof.
  induction 1 as [|c cs [Hc Hnow] Hcs IH]; simpl; [constructor|].
  destruct (String.eqb (c_id c) o).
  - simpl. constructor; [|exact Hcs]. unfold well_timed. simpl. auto.
  - destruct (find_one_and_update o st now cs) as [found cs'].
    simpl in *. constructor; auto.
Qed.

Lemma consistent_weaken (E : environment) (n m : nat)
    (cs : list complaint) :
  monotone_clock E -> (n <= m)%nat ->
  Forall (fun c => well_timed c /\ created_at c <= utcnow_at E n) cs ->
  Forall (fun c => well_timed c /\ created_at c <= utcnow_at E m) cs.
Proof.
  intros Hmono Hle. apply Forall_impl. intros c [Hc Hn]. split; [exact Hc|].
  pose proof (monotone_clock_le E Hmono n m Hle). lia.
Qed.

(** Every handler keeps the timestamps consistent when the clock never
    runs backwards. *)
Lemma handle_keeps_timestamps (E : environment) (req : request) (w : world) :
  monotone_clock E ->
  timestamps_consistent E w ->
  timestamps_consistent E (snd (handle E req w)).
Proof.
  intros Hmono Hw. unfold timestamps_consistent in *.
  destruct req as [method form | u cid st | u | u method form | data];
    simpl handle.
  - destruct (register_effect E method form w) as [-> Hle].
    eapply consistent_weaken; eauto.
  - destruct (update_complaint_status_effect E u cid st w)
      as [_ [Hle ->]].
    apply (consistent_weaken E (clock_reads w)); auto.
    destruct (is_admin u); [|exact Hw].
    destruct (ObjectId E cid) as [o|e]; [|exact Hw].
    now apply find_one_and_update_consistent.
  - unfold admin_dashboard. destruct (is_admin u); exact Hw.
  - destruct (submit_complaint_effect E u method form w)
      as [_ [[-> ->] | [d [_ [-> ->]]]]]; [exact Hw|].
    apply Forall_app. split.
    + apply (consistent_weaken E (clock_reads w)); auto.
    + constructor; [|constructor]. unfold well_timed, submitted. simpl.
      pose proof (Hmono (clock_reads w)).
      pose proof (Hmono (S (clock_reads w))). lia.
  - rewrite check_duplicate_complaint_world. exact Hw.
Qed.

Lemma run_keeps_timestamps (E : environment) (reqs : list request) :
  monotone_clock E ->
  forall w, timestamps_consistent E w -> timestamps_consistent E (run E reqs w).
Proof.
  intros Hmono. induction reqs as [|req reqs IH]; intros w Hw; simpl;
    [exact Hw|].
  apply IH. now apply handle_keeps_timestamps.
Qed.

(** C9, as the code has it: provided successive readings of the clock
    never decrease, every handler preserves the invariant that each
    stored complaint has [updated_at >= created_at] (and was created no
    later than the next reading of the clock), so the invariant holds of
    every complaint reachable from a consistent store, the empty one in
    particular, through any sequence of requests. *)
Theorem timestamps_stay_ordered (E : environment) (reqs : list request)
    (w : world) :
  monotone_clock E ->
  timestamps_consistent E w ->
  timestamps_consistent E (run E reqs w) /\
  Forall well_timed (db_complaints (run E reqs w)).
Proof.
  intros Hmono Hw.
  pose proof (run_keeps_timestamps E reqs Hmono w Hw) as H.
  split; [exact H|].
  revert H. apply Forall_impl. now intros c [Hc _].
Qed.

Lemma steady_clock_monotone : monotone_clock Sample.env.
Proof. intros n. simpl. unfold Sample.steady_clock. lia. Qed.

Lemma timestamps_stay_ordered_witness :
  monotone_clock Sample.env /\
  timestamps_consistent Sample.env Sample.one_complaint /\
  Forall well_timed
    (db_complaints (run Sample.env Scenario.requests Sample.one_complaint)).
Proof.
  assert (Hw : timestamps_consistent Sample.env Sample.one_complaint).
  { constructor; [|constructor].
    split; vm_compute; discriminate. }
  split; [exact steady_clock_monotone|]. split; [exact Hw|].
  exact (proj2 (timestamps_stay_ordered Sample.env Scenario.requests
                  Sample.one_complaint steady_clock_monotone Hw)).
Defined.

(** C9, as stated, fails when the clock is set back between the two
    readings of [submit_complaint]: the complaint stored from the empty
    store then has [updated_at] earlier than [created_at]. *)
Lemma timestamps_disordered_by_clock_step :
  ~ Forall well_timed
      (db_complaints
         (run env_stepping_back
            [SubmitComplaint Sample.student POST Scenario.other_route_form]
            empty_world)).
Proof.
  intros H. apply Forall_inv in H. vm_compute in H. now apply H.
Qed.

(** ** Registration *)

Lemma admin_passes_gates (E : environment) (u : user) :
  u_role u = Some "admin" -> passes_admin_gates E u.
Proof.
  intros Hrole. apply is_admin_spec in Hrole. split.
  - intros w. unfold admin_dashboard. rewrite Hrole. reflexivity.
  - intros complaint_id st o w Ho.
    now apply update_complaint_status_store.
Qed.

(** C10: registration stores the role of the form as it is, without any
    restriction.  For every registration with an email that is not yet
    in use, the user records the call adds all carry the role that was
    submitted ([None] when the form had none), exactly one record is
    added whenever the password can be hashed, and when the submitted
    role is ['admin'] the account passes the admin gates: the admin
    dashboard is rendered for it and its status updates are applied. *)
Theorem register_stores_role_verbatim (E : environment)
    (form : register_form) (w : world) :
  find_user_by_email (r_email form) (db_users w) = None ->
  exists added,
    db_users (snd (register E POST form w)) = (db_users w ++ added)%list /\
    Forall (fun account =>
              u_role account = r_role form /\
              (r_role form = Some "admin" -> passes_admin_gates E account))
      added /\
    (forall h, generate_password_hash E (r_password form) = Ok h ->
               List.length added = 1%nat).
Proof.
  intros Hfresh. unfold register. run_monad. rewrite Hfresh.
  destruct (generate_password_hash E (r_password form)) as [h|e].
  - exists [mkUser (new_ObjectId E (ids_generated w)) (r_email form) h
              (r_role form) (utcnow_at E (clock_reads w))].
    unfold utcnow, insert_user, generate_id. run_monad.
    rewrite send_email_run.
    split; [destruct (mail_send E _) as [[]|e]; reflexivity|].
    split; [|reflexivity].
    constructor; [|constructor]. split; [reflexivity|].
    intros Hrole. now apply admin_passes_gates.
  - exists []. simpl. rewrite app_nil_r.
    split; [reflexivity|]. split; [constructor|]. discriminate.
Qed.

Lemma register_stores_role_verbatim_witness :
  find_user_by_email (r_email Scenario.admin_registration)
    (db_users Sample.one_complaint) = None /\
  exists added,
    db_users (snd (register Sample.env POST Scenario.admin_registration
                     Sample.one_complaint)) =
    (db_users Sample.one_complaint ++ added)%list /\
    Forall (fun account =>
              u_role account = Some "admin" /\
              (Some "admin" = Some "admin" ->
               passes_admin_gates Sample.env account))
      added /\
    (forall h, Sample.hash_stub (Some "pw") = Ok h ->
               List.length added = 1%nat).
Proof.
  split; [reflexivity|].
  exact (register_stores_role_verbatim Sample.env Scenario.admin_registration
           Sample.one_complaint eq_refl).
Defined.

(** * Further properties of the handlers *)

(** ** Registration and the user collection *)

Lemma option_eqb_refl (a : option string) : option_eqb a a = true.
Proof. now apply option_eqb_eq. Qed.

Lemma find_user_by_email_none (email : option string) (us : list user) :
  find_user_by_email email us = None <-> ~ In email (map u_email us).
Proof.
  unfold find_user_by_email. induction us as [|u us IH]; simpl.
  - tauto.
  - destruct (option_eqb (u_email u) email) eqn:Heq.
    + apply option_eqb_eq in Heq. split; [discriminate | tauto].
    + rewrite IH. split; [|tauto]. intros Hn [H|H]; [|tauto].
      rewrite H, option_eqb_refl in Heq. discriminate.
Qed.

Lemma find_user_by_email_last (email : option string) (us : list user)
    (u : user) :
  find_user_by_email email us = None -> u_email u = email ->
  find_user_by_email email (us ++ [u]) = Some u.
Proof.
  unfold find_user_by_email. intros Hnone Hu.
  induction us as [|v us IH]; simpl in *.
  - now rewrite Hu, option_eqb_refl.
  - destruct (option_eqb (u_email v) email); [discriminate | auto].
Qed.

(** What a registration does to the user collection: nothing, or one
    record more, with the email of the form, when that email was free. *)
Lemma register_users_effect (E : environment) (method : http_method)
    (form : register_form) (w : world) :
  let w' := snd (register E method form w) in
  db_users w' = db_users w \/
  (find_user_by_email (r_email form) (db_users w) = None /\
   exists account,
     db_users w' = (db_users w ++ [account])%list /\
     u_email account = r_email form).
Proof.
  destruct method; [simpl; auto|].
  unfold register. run_monad.
  destruct (find_user_by_email _ _) eqn:Hfind; [simpl; auto|].
  destruct (generate_password_hash E _) as [h|e]; [|simpl; auto].
  unfold utcnow, insert_user, generate_id. run_monad.
  rewrite send_email_run. right. split; [reflexivity|].
  eexists. destruct (mail_send E _) as [[]|e]; simpl; split; reflexivity.
Qed.

(** X1: registering with an email that some stored user already has is
    turned away: the caller is sent back to the registration form with
    the message "Email already exists", and nothing else happens; no
    record is written, no password is hashed, no mail is attempted. *)
Theorem register_existing_email_rejected (E : environment)
    (form : register_form) (w : world) (u : user) :
  In u (db_users w) -> u_email u = r_email form ->
  register E POST form w =
  (Ok (Redirect "register"), add_flash ("Email already exists", "message") w).
Proof.
  intros Hin Hemail. unfold register. run_monad.
  destruct (find_user_by_email (r_email form) (db_users w)) eqn:Hfind;
    [reflexivity|].
  apply find_user_by_email_none in Hfind. exfalso. apply Hfind.
  rewrite <- Hemail. now apply in_map.
Qed.

Lemma register_existing_email_rejected_witness :
  register Sample.env POST
    (mkRegisterForm (Some "a@x.com") (Some "other") (Some "admin"))
    Sample.one_complaint =
  (Ok (Redirect "register"),
   add_flash ("Email already exists", "message") Sample.one_complaint).
Proof.
  apply (register_existing_email_rejected Sample.env _ Sample.one_complaint
           Sample.student).
  - simpl; auto.
  - reflexivity.
Defined.

Lemma handle_users_effect (E : environment) (req : request) (w : world) :
  db_users (snd (handle E req w)) = db_users w \/
  exists account,
    ~ In (u_email account) (map u_email (db_users w)) /\
    db_users (snd (handle E req w)) = (db_users w ++ [account])%list.
Proof.
  destruct req as [method form | u cid st | u | u method form | data];
    simpl handle.
  - destruct (register_users_effect E method form w)
      as [H | [Hfresh [account [H Hemail]]]]; [now left|].
    right. exists account. split; [|exact H].
    rewrite Hemail. now apply find_user_by_email_none.
  - left. now destruct (update_complaint_status_effect E u cid st w).
  - left. unfold admin_dashboard. now destruct (is_admin u).
  - left. now destruct (submit_complaint_effect E u method form w).
  - left. now rewrite check_duplicate_complaint_world.
Qed.

(** X2: emails stay unique.  When no two stored users share an email,
    no sequence of requests makes two users share one: the only write to
    the user collection is the insert of [register], which is guarded by
    the lookup of the email. *)
Theorem emails_stay_unique (E : environment) (reqs : list request)
    (w : world) :
  NoDup (map u_email (db_users w)) ->
  NoDup (map u_email (db_users (run E reqs w))).
Proof.
  revert w. induction reqs as [|req reqs IH]; intros w Hw; simpl;
    [exact Hw|].
  apply IH.
  destruct (handle_users_effect E req w) as [-> | [account [Hfresh ->]]];
    [exact Hw|].
  rewrite map_app. simpl.
  rewrite <- (rev_involutive (map u_email (db_users w) ++ [u_email account])).
  apply NoDup_rev. rewrite rev_app_distr. simpl.
  constructor.
  - now rewrite <- in_rev.
  - now apply NoDup_rev.
Qed.

Lemma emails_stay_unique_witness :
  NoDup (map u_email (db_users Sample.one_complaint)) /\
  NoDup (map u_email
           (db_users
              (run Sample.env
                 [Register POST Scenario.admin_registration;
                  Register POST Scenario.admin_registration;
                  Register POST Extra.student_registration]
                 Sample.one_complaint))).
Proof.
  assert (H : NoDup (map u_email (db_users Sample.one_complaint))).
  { simpl. constructor; [|constructor; [|constructor]].
    - intros [H|[]]. discriminate.
    - intros []. }
  split; [exact H|].
  exact (emails_stay_unique Sample.env _ Sample.one_complaint H).
Defined.

(** ** Login and the session *)

Lemma find_user_by_id_unique (u : user) (us : list user) :
  NoDup (map u_id us) -> In u us -> find_user_by_id (u_id u) us = Some u.
Proof.
  unfold find_user_by_id. induction us as [|v us IH]; simpl; [tauto|].
  intros Hnd [->|Hin].
  - now rewrite String.eqb_refl.
  - inversion Hnd as [|x xs Hnotin Hnd']; subst.
    destruct (String.eqb (u_id v) (u_id u)) eqn:Heq; [|auto].
    apply String.eqb_eq in Heq. exfalso. apply Hnotin.
    rewrite Heq. now apply in_map.
Qed.

(** X3: an unknown email and a wrong password get the same answer.  When
    no stored user has the email of the form, or the stored hash does not
    verify the password, [login] renders the login page with the message
    "Invalid email or password", leaves the session as it was and
    changes nothing but the flashed message. *)
Theorem login_failure_is_uniform
    (check_password_hash : string -> option string -> result bool)
    (form : login_form) (s : session) (w : world) :
  (find_user_by_email (l_email form) (db_users w) = None \/
   exists ud,
     find_user_by_email (l_email form) (db_users w) = Some ud /\
     check_password_hash (u_password ud) (l_password form) = Ok false) ->
  login check_password_hash POST form s w =
  (Ok (RenderTemplate "login.html", s),
   add_flash ("Invalid email or password", "message") w).
Proof.
  intros [Hnone | [ud [Hsome Hcheck]]]; unfold login; run_monad.
  - now rewrite Hnone.
  - now rewrite Hsome, Hcheck.
Qed.

Lemma login_failure_is_uniform_witness :
  login Extra.check_stub POST (mkLoginForm (Some "a@x.com") (Some "guess"))
    None Sample.one_complaint =
  login Extra.check_stub POST (mkLoginForm (Some "nobody@x.com") (Some "pw"))
    None Sample.one_complaint.
Proof.
  rewrite (login_failure_is_uniform Extra.check_stub
             (mkLoginForm (Some "a@x.com") (Some "guess")) None
             Sample.one_complaint).
  - rewrite (login_failure_is_uniform Extra.check_stub
               (mkLoginForm (Some "nobody@x.com") (Some "pw")) None
               Sample.one_complaint); [reflexivity|].
    left. reflexivity.
  - right. exists Sample.student. split; reflexivity.
Defined.

(** X4: registering and then logging in.  After a registration with a
    free email and a password that the verifier accepts against its
    hash, [login] with that email and password succeeds: the session
    holds the id of the new account, nothing is written, and the caller
    is sent to the admin dashboard when the registered role is ['admin']
    and to the dashboard otherwise. *)
Theorem register_then_login (E : environment)
    (check_password_hash : string -> option string -> result bool)
    (form : register_form) (s : session) (w : world) (h : string) :
  find_user_by_email (r_email form) (db_users w) = None ->
  generate_password_hash E (r_password form) = Ok h ->
  check_password_hash h (r_password form) = Ok true ->
  let w1 := snd (register E POST form w) in
  login check_password_hash POST
    (mkLoginForm (r_email form) (r_password form)) s w1 =
  (Ok (Redirect (if option_eqb (r_role form) (Some "admin")
                 then "admin_dashboard" else "dashboard"),
       Some (new_ObjectId E (ids_generated w))), w1).
Proof.
  intros Hfresh Hhash Hcheck w1.
  assert (Husers : db_users w1 =
                   (db_users w ++
                    [mkUser (new_ObjectId E (ids_generated w)) (r_email form)
                       h (r_role form) (utcnow_at E (clock_reads w))])%list).
  { subst w1. unfold register. run_monad. rewrite Hfresh, Hhash.
    unfold utcnow, insert_user, generate_id. run_monad.
    rewrite send_email_run.
    destruct (mail_send E _) as [[]|e]; reflexivity. }
  unfold login. run_monad. rewrite Husers.
  erewrite find_user_by_email_last; [|exact Hfresh|reflexivity]. simpl.
  rewrite Hcheck.
  now destruct (option_eqb (r_role form) (Some "admin")).
Qed.

Lemma register_then_login_witness :
  fst (login Extra.check_stub POST (mkLoginForm (Some "eve@x.com") (Some "pw"))
         None
         (snd (register Sample.env POST Scenario.admin_registration
                 Sample.one_complaint))) =
  Ok (Redirect "admin_dashboard", Some (Sample.oid_of_nat 8)).
Proof.
  exact (f_equal fst
           (register_then_login Sample.env Extra.check_stub
              Scenario.admin_registration None Sample.one_complaint
              "hashed:pw" eq_refl eq_refl eq_refl)).
Defined.

(** X5: the session id stands for its user.  When the stored users have
    distinct ids and [ObjectId] reads the id of a stored user back,
    [load_user] on [get_id] of that user returns that very record, and
    it changes nothing. *)
Theorem load_user_get_id (E : environment) (u : user) (w : world) :
  NoDup (map u_id (db_users w)) ->
  In u (db_users w) ->
  ObjectId E (get_id u) = Ok (u_id u) ->
  load_user E (get_id u) w = (Ok (Some u), w).
Proof.
  intros Hnd Hin Hoid. unfold load_user. run_monad. rewrite Hoid.
  now rewrite (find_user_by_id_unique u (db_users w) Hnd Hin).
Qed.

Lemma load_user_get_id_witness :
  load_user Sample.env (get_id Sample.admin) Sample.one_complaint =
  (Ok (Some Sample.admin), Sample.one_complaint).
Proof.
  apply (load_user_get_id Sample.env Sample.admin Sample.one_complaint).
  - simpl. constructor; [|constructor; [|constructor]].
    + intros [H|[]]. discriminate.
    + intros [].
  - simpl; auto.
  - reflexivity.
Defined.

(** ** The two dashboards *)

(** X6: a caller who is not an admin is shown the stored complaints
    whose [user_id] is the caller's id, all of them and no others, and
    the dashboard changes nothing. *)
Theorem dashboard_lists_own_complaints (u : user) (w : world) :
  u_role u <> Some "admin" ->
  exists shown,
    dashboard u w = (Ok (RenderDashboard shown), w) /\
    forall c, In c shown <-> In c (db_complaints w) /\ user_id c = get_id u.
Proof.
  intros Hrole.
  assert (Ha : is_admin u = false).
  { destruct (is_admin u) eqn:H; [|reflexivity].
    apply is_admin_spec in H. contradiction. }
  unfold dashboard. rewrite Ha. run_monad. eexists. split; [reflexivity|].
  intros c. rewrite filter_In, String.eqb_eq. tauto.
Qed.

Lemma dashboard_lists_own_complaints_witness :
  u_role Sample.student <> Some "admin" /\
  exists shown,
    dashboard Sample.student Sample.one_complaint =
    (Ok (RenderDashboard shown), Sample.one_complaint) /\
    forall c, In c shown <->
              In c (db_complaints Sample.one_complaint) /\
              user_id c = get_id Sample.student.
Proof.
  assert (H : u_role Sample.student <> Some "admin") by discriminate.
  split; [exact H|].
  exact (dashboard_lists_own_complaints Sample.student Sample.one_complaint H).
Defined.

(** X7: every caller has exactly one dashboard.  For an admin
    [dashboard] redirects to [admin_dashboard], which renders; for
    anyone else [admin_dashboard] redirects to [dashboard], which
    renders.  The two never send a caller back and forth, and neither
    changes anything. *)
Theorem one_dashboard_per_user (u : user) (w : world) :
  (snd (dashboard u w) = w /\ snd (admin_dashboard u w) = w) /\
  ((fst (dashboard u w) = Ok (DashboardRedirect "admin_dashboard") /\
    exists cs us total pending resolved,
      fst (admin_dashboard u w) =
      Ok (RenderAdminDashboard cs us total pending resolved))
   \/
   (fst (admin_dashboard u w) = Ok (Redirect "dashboard") /\
    exists shown, fst (dashboard u w) = Ok (RenderDashboard shown))).
Proof.
  unfold dashboard, admin_dashboard.
  destruct (is_admin u); run_monad.
  - split; [auto|]. left. split; [reflexivity|].
    do 5 eexists. reflexivity.
  - split; [auto|]. right. split; [reflexivity|]. eexists. reflexivity.
Qed.

Lemma count_status_bound (cs : list complaint) :
  (count_status "pending" cs + count_status "resolved" cs <= List.length cs)%nat
  /\
  ((count_status "pending" cs + count_status "resolved" cs)%nat
   = List.length cs <->
   Forall (fun c => status c = "pending" \/ status c = "resolved") cs).
Proof.
  unfold count_status.
  induction cs as [|c cs [IHle IHeq]]; simpl.
  - split; [lia|]. split; [constructor | reflexivity].
  - pose proof (filter_length_le (fun c => String.eqb (status c) "pending") cs).
    pose proof (filter_length_le (fun c => String.eqb (status c) "resolved") cs).
    destruct (String.eqb (status c) "pending") eqn:Hp;
      destruct (String.eqb (status c) "resolved") eqn:Hr; simpl.
    + apply String.eqb_eq in Hp, Hr. rewrite Hp in Hr. discriminate.
    + apply String.eqb_eq in Hp. split; [lia|]. split.
      * intros Heq. constructor; [now left|]. apply IHeq. lia.
      * intros Hall. inversion Hall; subst. apply IHeq in H4. lia.
    + apply String.eqb_eq in Hr. split; [lia|]. split.
      * intros Heq. constructor; [now right|]. apply IHeq. lia.
      * intros Hall. inversion Hall; subst. apply IHeq in H4. lia.
    + apply String.eqb_neq in Hp, Hr. split; [lia|]. split.
      * intros Heq. lia.
      * intros Hall. inversion Hall; subst. tauto.
Qed.

(** X8: what the admin dashboard shows.  For an admin it renders all
    the stored complaints, with their number as the total, and the
    users whose role is ['student'], all of them and no others; the
    pending and the resolved complaints together never outnumber the
    total, and they make up the total exactly when every stored status
    is ['pending'] or ['resolved'].  Nothing is changed. *)
Theorem admin_dashboard_statistics (u : user) (w : world) :
  u_role u = Some "admin" ->
  exists us total pending resolved,
    admin_dashboard u w =
    (Ok (RenderAdminDashboard (db_complaints w) us total pending resolved),
     w) /\
    total = List.length (db_complaints w) /\
    (pending + resolved <= total)%nat /\
    ((pending + resolved)%nat = total <->
     Forall (fun c => status c = "pending" \/ status c = "resolved")
       (db_complaints w)) /\
    (forall x, In x us <-> In x (db_users w) /\ u_role x = Some "student").
Proof.
  intros Hrole. apply is_admin_spec in Hrole.
  unfold admin_dashboard. rewrite Hrole. run_monad.
  do 4 eexists. split; [reflexivity|]. split; [reflexivity|].
  destruct (count_status_bound (db_complaints w)) as [Hle Heq].
  split; [exact Hle|]. split; [exact Heq|].
  intros x. unfold find_users_by_role. rewrite filter_In, option_eqb_eq.
  tauto.
Qed.

Lemma admin_dashboard_statistics_witness :
  exists us total pending resolved,
    admin_dashboard Sample.admin Sample.one_complaint =
    (Ok (RenderAdminDashboard (db_complaints Sample.one_complaint) us total
           pending resolved), Sample.one_complaint) /\
    total = 1%nat /\ (pending + resolved <= total)%nat.
Proof.
  destruct (admin_dashboard_statistics Sample.admin Sample.one_complaint
              eq_refl)
    as [us [total [pending [resolved [Hrun [Htotal [Hle _]]]]]]].
  exists us, total, pending, resolved. auto.
Defined.

(** ** What a status update changes *)




(** ** The complaint collection only grows *)

Lemma find_one_and_update_content (o : oid) (st : string) (now : datetime)
    (cs : list complaint) :
  map content (snd (find_one_and_update o st now cs)) = map content cs.
Proof.
  induction cs as [|c cs IH]; simpl; [reflexivity|].
  destruct (String.eqb (c_id c) o); [reflexivity|].
  destruct (find_one_and_update o st now cs) as [found cs'].
  simpl in *. now rewrite IH.
Qed.

Lemma handle_content (E : environment) (req : request) (w : world) :
  exists added,
    map content (db_complaints (snd (handle E req w))) =
    (map content (db_complaints w) ++ added)%list.
Proof.
  destruct req as [method form | u cid st | u | u method form | data];
    simpl handle.
  - exists []. destruct (register_effect E method form w) as [-> _].
    now rewrite app_nil_r.
  - exists []. destruct (update_complaint_status_effect E u cid st w)
      as [_ [_ ->]].
    rewrite app_nil_r. destruct (is_admin u); [|reflexivity].
    destruct (ObjectId E cid); [|reflexivity].
    apply find_one_and_update_content.
  - exists []. unfold admin_dashboard.
    destruct (is_admin u); simpl; now rewrite app_nil_r.
  - destruct (submit_complaint_effect E u method form w)
      as [_ [[-> _] | [d [_ [-> _]]]]].
    + exists []. now rewrite app_nil_r.
    + eexists. now rewrite map_app.
  - exists []. rewrite check_duplicate_complaint_world.
    now rewrite app_nil_r.
Qed.

(** X10: no request removes, reorders or rewrites a stored complaint.
    After any sequence of requests the complaints that were stored are
    still there, in the same order and with the same id, owner, student
    id, route, title, description, location, creation time and incident
    date; what is new comes after them.  Only the status and the time of
    the last update of a stored complaint can differ. *)
Theorem complaints_are_append_only (E : environment) (reqs : list request)
    (w : world) :
  exists added,
    map content (db_complaints (run E reqs w)) =
    (map content (db_complaints w) ++ added)%list.
Proof.
  revert w. induction reqs as [|req reqs IH]; intros w; simpl.
  - exists []. now rewrite app_nil_r.
  - destruct (IH (snd (handle E req w))) as [later Hlater].
    destruct (handle_content E req w) as [first Hfirst].
    exists (first ++ later)%list.
    now rewrite Hlater, Hfirst, app_assoc.
Qed.

(** ** Submitting *)

Lemma startswith_refl (s : string) : startswith s s = true.
Proof.
  induction s as [|c s IH]; simpl; [reflexivity|].
  now rewrite Ascii.eqb_refl, IH.
Qed.

Lemma str_in_refl (s : string) : str_in s s = true.
Proof.
  destruct s as [|c s]; [reflexivity|].
  change (startswith (String c s) (String c s) || str_in (String c s) s
          = true).
  now rewrite startswith_refl.
Qed.

(** The complaints after the submission of a complete form with a
    readable date: as before when a candidate passes the test, and one
    more otherwise. *)
Lemma submit_complaint_stored (E : environment) (u : user)
    (form : complaint_form) (w : world) (d : datetime) :
  forallb truthy (required_fields form) = true ->
  strptime E (f_incident_date form) = Ok d ->
  0 <= d -> d + ms_per_day <= datetime_max ->
  db_complaints (snd (submit_complaint E u POST form w)) =
  if existsb (similarb E (text (f_description form)))
       (find_complaints (Some (text (f_bus_route form))) d
          (d + 1 * ms_per_day) (db_complaints w))
  then db_complaints w
  else (db_complaints w ++ [submitted E u form d w])%list.
Proof.
  intros Hvalid Hd H0 H1.
  rewrite (submit_complaint_valid E u form w Hvalid), Hd.
  rewrite (add_days_in_range d H0 H1).
  assert (Hr : f_bus_route form = Some (text (f_bus_route form))).
  { apply truthy_text. rewrite forallb_forall in Hvalid.
    apply Hvalid. simpl; tauto. }
  assert (Hs : f_description form = Some (text (f_description form))).
  { apply truthy_text. rewrite forallb_forall in Hvalid.
    apply Hvalid. simpl; tauto. }
  rewrite Hr at 1. rewrite Hs at 1. rewrite submit_complaint_loop_spec.
  destruct (existsb _ _); [reflexivity|]. cbv zeta.
  destruct (mail_send E _) as [[]|e]; reflexivity.
Qed.

Lemma submitted_is_candidate (E : environment) (u : user)
    (form : complaint_form) (w : world) (d : datetime) :
  f_description form = Some (text (f_description form)) ->
  matches_route_and_day (Some (text (f_bus_route form))) d
    (d + 1 * ms_per_day) (submitted E u form d w) = true /\
  similarb E (text (f_description form)) (submitted E u form d w) = true.
Proof.
  intros Hs. split.
  - apply matches_route_and_day_spec. simpl. unfold ms_per_day.
    repeat split; [lia | lia].
  - unfold similarb, existing_description, submitted. simpl.
    rewrite Hs. simpl. now rewrite str_in_refl.
Qed.

(** X11: a form that is sent twice is stored at most once.  After the
    submission of a complete form whose date is read as a day with a
    next day, a second submission of the same form, by the same or by
    another caller, is rejected as a duplicate and stores nothing,
    whether the first one was stored or was itself rejected. *)
Theorem resubmission_is_rejected (E : environment) (u u' : user)
    (form : complaint_form) (w : world) (d : datetime) :
  Forall (fun v => ~ missing_or_empty v) (required_fields form) ->
  strptime E (f_incident_date form) = Ok d ->
  0 <= d -> d + ms_per_day <= datetime_max ->
  let w1 := snd (submit_complaint E u POST form w) in
  submit_complaint E u' POST form w1 = duplicate_rejected w1.
Proof.
  intros Hvalid Hd H0 H1 w1. apply required_fields_valid in Hvalid.
  assert (Hr : f_bus_route form = Some (text (f_bus_route form))).
  { apply truthy_text. rewrite forallb_forall in Hvalid.
    apply Hvalid. simpl; tauto. }
  assert (Hs : f_description form = Some (text (f_description form))).
  { apply truthy_text. rewrite forallb_forall in Hvalid.
    apply Hvalid. simpl; tauto. }
  assert (Hkey : existsb (similarb E (text (f_description form)))
                   (find_complaints (Some (text (f_bus_route form))) d
                      (d + 1 * ms_per_day) (db_complaints w1)) = true).
  { subst w1. rewrite (submit_complaint_stored E u form w d Hvalid Hd H0 H1).
    destruct (existsb (similarb E (text (f_description form)))
                (find_complaints (Some (text (f_bus_route form))) d
                   (d + 1 * ms_per_day) (db_complaints w))) eqn:Hex;
      [exact Hex|].
    destruct (submitted_is_candidate E u form w d Hs) as [Hm Hsim].
    unfold find_complaints. rewrite filter_app, existsb_app.
    cbn [filter]. rewrite Hm. cbn [existsb]. rewrite Hsim.
    now rewrite orb_true_r. }
  rewrite (submit_complaint_valid E u' form w1 Hvalid), Hd.
  rewrite (add_days_in_range d H0 H1).
  rewrite Hr at 1. rewrite Hs at 1.
  now rewrite submit_complaint_loop_spec, Hkey.
Qed.

Lemma resubmission_is_rejected_witness :
  let w1 :=
    snd (submit_complaint Sample.env Sample.student POST
           Scenario.other_route_form Sample.one_complaint) in
  List.length (db_complaints w1) = 2%nat /\
  submit_complaint Sample.env Sample.admin POST Scenario.other_route_form w1 =
  duplicate_rejected w1.
Proof.
  split; [reflexivity|].
  apply (resubmission_is_rejected Sample.env Sample.student Sample.admin
           Scenario.other_route_form Sample.one_complaint
           (midnight 2024 3 1)).
  - apply required_fields_valid. reflexivity.
  - reflexivity.
  - vm_compute; discriminate.
  - vm_compute; discriminate.
Defined.

(** X12: a complete form whose date cannot be used stores nothing.  When
    the parser refuses the incident date, or the date has no next day,
    [submit_complaint] sends the caller back to the form with the flash
    "Error submitting complaint: " followed by the text of the
    exception, category ['error']; no complaint is written and no mail
    is attempted. *)
Theorem submit_unusable_date (E : environment) (u : user)
    (form : complaint_form) (w : world) (e : exn) :
  Forall (fun v => ~ missing_or_empty v) (required_fields form) ->
  (strptime E (f_incident_date form) = Raise e \/
   exists d, strptime E (f_incident_date form) = Ok d /\
             add_days d 1 = Raise e) ->
  submit_complaint E u POST form w =
  (Ok (Redirect "submit_complaint"),
   add_flash ("Error submitting complaint: " ++ exn_text e, "error") w).
Proof.
  intros Hvalid Hdate. apply required_fields_valid in Hvalid.
  rewrite (submit_complaint_valid E u form w Hvalid).
  destruct Hdate as [-> | [d [-> ->]]]; reflexivity.
Qed.

Lemma submit_unusable_date_witness :
  submit_complaint Sample.env Sample.student POST Extra.unreadable_date_form
    Sample.one_complaint =
  (Ok (Redirect "submit_complaint"),
   add_flash
     ("Error submitting complaint: time data '01/03/2024' does not match format '%Y-%m-%d'",
      "error") Sample.one_complaint).
Proof.
  apply (submit_unusable_date Sample.env Sample.student
           Extra.unreadable_date_form Sample.one_complaint
           (does_not_match "01/03/2024")).
  - apply required_fields_valid. reflexivity.
  - left. reflexivity.
Defined.

(** X13: a submitted complaint shows up on its owner's dashboard.  After
    the submission of a complete form that is no duplicate, by a caller
    who is not an admin, the dashboard of that caller lists what it
    listed before followed by the new complaint, whose status is
    ['pending']; the dashboard of a caller with another id lists what it
    listed before. *)
Theorem submitted_complaint_on_dashboard (E : environment) (u : user)
    (form : complaint_form) (w : world) (d : datetime) :
  Forall (fun v => ~ missing_or_empty v) (required_fields form) ->
  strptime E (f_incident_date form) = Ok d ->
  0 <= d -> d + ms_per_day <= datetime_max ->
  ~ has_duplicate E w (text (f_bus_route form)) d (text (f_description form)) ->
  u_role u <> Some "admin" ->
  let w1 := snd (submit_complaint E u POST form w) in
  (exists shown,
      fst (dashboard u w) = Ok (RenderDashboard shown) /\
      fst (dashboard u w1) =
      Ok (RenderDashboard (shown ++ [submitted E u form d w]))) /\
  status (submitted E u form d w) = "pending" /\
  (forall v, get_id v <> get_id u ->
             fst (dashboard v w1) = fst (dashboard v w)).
Proof.
  intros Hvalid Hd H0 H1 Hno Hrole w1.
  apply required_fields_valid in Hvalid.
  assert (Hdb : db_complaints w1 =
                (db_complaints w ++ [submitted E u form d w])%list).
  { subst w1. rewrite (submit_complaint_stored E u form w d Hvalid Hd H0 H1).
    rewrite <- candidates_spec in Hno.
    now destruct (existsb _ _). }
  assert (Ha : is_admin u = false).
  { destruct (is_admin u) eqn:H; [|reflexivity].
    apply is_admin_spec in H. contradiction. }
  split; [|split; [reflexivity|]].
  - unfold dashboard. rewrite Ha. run_monad. eexists.
    split; [reflexivity|].
    rewrite Hdb, filter_app. cbn [filter submitted user_id].
    unfold get_id. now rewrite String.eqb_refl.
  - intros v Hv. unfold dashboard. destruct (is_admin v); [reflexivity|].
    run_monad. rewrite Hdb, filter_app. cbn [filter submitted user_id].
    assert (Hne : String.eqb (u_id u) (get_id v) = false).
    { apply String.eqb_neq. unfold get_id in *. intros H. now apply Hv. }
    rewrite Hne. now rewrite app_nil_r.
Qed.

Lemma submitted_complaint_on_dashboard_witness :
  fst (dashboard Sample.student
         (snd (submit_complaint Sample.env Sample.student POST
                 Scenario.other_route_form Sample.one_complaint))) =
  Ok (RenderDashboard
        [Sample.broken_ac;
         submitted Sample.env Sample.student Scenario.other_route_form
           (midnight 2024 3 1) Sample.one_complaint]).
Proof.
  destruct (submitted_complaint_on_dashboard Sample.env Sample.student
              Scenario.other_route_form Sample.one_complaint
              (midnight 2024 3 1))
    as [[shown [Hbefore Hafter]] _].
  - apply required_fields_valid. reflexivity.
  - reflexivity.
  - vm_compute; discriminate.
  - vm_compute; discriminate.
  - rewrite <- candidates_spec. vm_compute. discriminate.
  - discriminate.
  - rewrite Hafter. injection Hbefore as <-. reflexivity.
Defined.

(** ** The duplicate endpoint *)

(** X14: the endpoint never writes, and answers every object.  Whatever
    the JSON body and the store, [check_duplicate_complaint] leaves the
    world exactly as it was: nothing stored, flashed, mailed or read
    from the clock.  For a body that is an object (its three fields
    strings or absent) it returns JSON, with status 200 and a
    [duplicate] flag or with status 500 and an error text, and no
    exception leaves it.  For a body that is not an object ([null], a
    list, a string, a number) the [AttributeError] of the first
    [data.get], which stands before the [try], leaves the handler. *)
Theorem check_duplicate_always_answers (E : environment)
    (data : json_data) (w : world) :
  snd (check_duplicate_complaint E data w) = w /\
  match data with
  | JsonObject _ => json_answer (fst (check_duplicate_complaint E data w))
  | JsonOther type_name =>
      fst (check_duplicate_complaint E data w) =
      Raise (Exception "AttributeError"
               ("'" ++ type_name ++ "' object has no attribute 'get'"))
  end.
Proof.
  split; [apply check_duplicate_complaint_world|].
  destruct data as [fields | type_name]; [|reflexivity].
  rewrite check_duplicate_complaint_run.
  unfold json_answer. simpl.
  destruct (strptime E (q_incident_date fields)) as [d|e]; [|right; eauto].
  destruct (add_days d 1) as [nd|e]; [|right; eauto].
  destruct (check_duplicate_loop _ _ _) as [[|]|e]; [left | left | right];
    eauto.
Qed.

Lemma off_query_not_matched (E : environment) (data : duplicate_query)
    (c : complaint) (d : datetime) :
  off_query E data c ->
  strptime E (q_incident_date data) = Ok d ->
  matches_route_and_day (q_bus_route data) d (d + 1 * ms_per_day) c = false.
Proof.
  intros [Hroute | Hday] Hd; unfold matches_route_and_day.
  - destruct (option_eqb (Some (bus_route c)) (q_bus_route data)) eqn:Heq;
      [|reflexivity].
    apply option_eqb_eq in Heq. contradiction.
  - destruct (Hday d Hd) as [Hlt | Hge].
    + replace (d <=? incident_date c) with false
        by (symmetry; apply Z.leb_gt; lia).
      now rewrite andb_false_r.
    + replace (incident_date c <? d + 1 * ms_per_day) with false
        by (symmetry; apply Z.ltb_ge; lia).
      now rewrite andb_false_r.
Qed.

(** X15: complaints of other routes and other days do not count.  The
    answer of the endpoint is the same with and without a stored
    complaint that is of another route than the query asks about, or
    whose incident date is before the day of the query or at or after
    the midnight that ends it, whatever that complaint says. *)
Theorem off_query_complaint_ignored (E : environment)
    (data : duplicate_query) (w : world) (pre post : list complaint)
    (c : complaint) :
  off_query E data c ->
  fst (check_duplicate_complaint E (JsonObject data)
         (set_complaints (pre ++ c :: post) w)) =
  fst (check_duplicate_complaint E (JsonObject data)
         (set_complaints (pre ++ post) w)).
Proof.
  intros Hoff. rewrite !check_duplicate_complaint_run. simpl.
  destruct (strptime E (q_incident_date data)) as [d|e] eqn:Hd;
    [|reflexivity].
  destruct (add_days d 1) as [nd|e] eqn:Hnd; [|reflexivity].
  apply add_days_one in Hnd. subst nd.
  unfold find_complaints. rewrite !filter_app. cbn [filter].
  now rewrite (off_query_not_matched E data c d Hoff Hd).
Qed.

Lemma off_query_complaint_ignored_witness :
  off_query Sample.env Extra.route_one_query Extra.other_day_complaint /\
  fst (check_duplicate_complaint Sample.env (JsonObject Extra.route_one_query)
         (set_complaints [Extra.other_day_complaint] Sample.one_complaint)) =
  Ok (Json (DuplicateBody false None) 200).
Proof.
  assert (H : off_query Sample.env Extra.route_one_query
                Extra.other_day_complaint).
  { right. intros d Hd. injection Hd as <-. right.
    vm_compute. discriminate. }
  split; [exact H|].
  exact (eq_trans
           (off_query_complaint_ignored Sample.env Extra.route_one_query
              Sample.one_complaint [] [] Extra.other_day_complaint H)
           eq_refl).
Defined.

(** X16: a query without a description.  When the JSON object has no
    [description] and its date is read as a day with a next day, the
    endpoint answers "no duplicate" if the store holds no complaint of
    that route and day, and answers with status 500 and the text of the
    [AttributeError] as soon as it holds one. *)
Theorem missing_description_answer (E : environment) (w : world)
    (r ds : string) (d : datetime) :
  strptime E (Some ds) = Ok d ->
  0 <= d -> d + ms_per_day <= datetime_max ->
  let answer :=
    fst (check_duplicate_complaint E
           (JsonObject (mkDuplicateQuery (Some r) None (Some ds))) w) in
  let on_route_and_day c :=
    bus_route c = r /\
    d <= incident_date c /\ incident_date c < d + ms_per_day in
  ((exists c, In c (db_complaints w) /\ on_route_and_day c) ->
   answer =
   Ok (Json (ErrorBody "'NoneType' object has no attribute 'lower'") 500))
  /\
  (~ (exists c, In c (db_complaints w) /\ on_route_and_day c) ->
   answer = Ok (Json (DuplicateBody false None) 200)).
Proof.
  intros Hd H0 H1 answer on_route_and_day. subst answer.
  rewrite check_duplicate_complaint_run. simpl.
  rewrite Hd, (add_days_in_range d H0 H1).
  destruct (find_complaints (Some r) d (d + 1 * ms_per_day)
              (db_complaints w)) as [|c cs] eqn:Hfind.
  - split; [|reflexivity].
    intros [c [Hin Hc]]. exfalso.
    assert (Hc' : In c (find_complaints (Some r) d (d + 1 * ms_per_day)
                          (db_complaints w))).
    { apply filter_In. split; [exact Hin|].
      now apply matches_route_and_day_spec. }
    rewrite Hfind in Hc'. destruct Hc'.
  - split; [reflexivity|].
    intros Hnone. exfalso. apply Hnone. exists c.
    assert (Hc : In c (find_complaints (Some r) d (d + 1 * ms_per_day)
                         (db_complaints w)))
      by (rewrite Hfind; simpl; auto).
    apply filter_In in Hc as [Hin Hm].
    apply matches_route_and_day_spec in Hm. now split.
Qed.

Lemma missing_description_answer_witness :
  fst (check_duplicate_complaint Sample.env (JsonObject Extra.no_description_query)
         Sample.one_complaint) =
  Ok (Json (ErrorBody "'NoneType' object has no attribute 'lower'") 500)
  /\
  fst (check_duplicate_complaint Sample.env (JsonObject Extra.no_description_query)
         empty_world) =
  Ok (Json (DuplicateBody false None) 200).
Proof.
  assert (H0 : 0 <= midnight 2024 3 1) by (vm_compute; discriminate).
  assert (H1 : midnight 2024 3 1 + ms_per_day <= datetime_max)
    by (vm_compute; discriminate).
  split.
  - apply (proj1 (missing_description_answer Sample.env Sample.one_complaint
                    "Route 1" "2024-03-01" (midnight 2024 3 1)
                    eq_refl H0 H1)).
    exists Sample.broken_ac. split; [simpl; auto|].
    split; [reflexivity|]. split; vm_compute; [discriminate | reflexivity].
  - apply (proj2 (missing_description_answer Sample.env empty_world
                    "Route 1" "2024-03-01" (midnight 2024 3 1)
                    eq_refl H0 H1)).
    intros [c [[] _]].
Defined.

(** ** Notifying the owner *)

Lemma find_one_and_update_at (o : oid) (st : string) (now : datetime)
    (pre post : list complaint) (c : complaint) :
  c_id c = o -> (forall x, In x pre -> c_id x <> o) ->
  find_one_and_update o st now (pre ++ c :: post) =
  (Some (set_status st now c), (pre ++ set_status st now c :: post)%list).
Proof.
  intros Hc. induction pre as [|x pre IH]; intros Hpre; simpl.
  - apply String.eqb_eq in Hc. now rewrite Hc.
  - assert (Hx : String.eqb (c_id x) o = false)
      by (apply String.eqb_neq, Hpre; simpl; auto).
    rewrite Hx, IH; [reflexivity|]. intros y Hy. apply Hpre. simpl; auto.
Qed.

(** X17: a status update is announced to the owner of the complaint,
    once.  When an admin updates a stored complaint whose [user_id]
    reads as an [ObjectId], the answer is the redirect to the admin
    dashboard; if a user with that id is stored, exactly one mail is
    attempted, to that user's email and with the title of the complaint
    and the new status, and the message flashed says whether it could be
    sent; if no such user is stored, no mail is attempted and nothing is
    flashed.  The update itself is not affected. *)
Theorem update_notifies_owner (E : environment) (u : user)
    (complaint_id st : string) (o owner : oid) (w : world)
    (pre post : list complaint) (c : complaint) :
  u_role u = Some "admin" ->
  ObjectId E complaint_id = Ok o ->
  db_complaints w = (pre ++ c :: post)%list ->
  c_id c = o -> (forall x, In x pre -> c_id x <> o) ->
  ObjectId E (user_id c) = Ok owner ->
  let out := update_complaint_status E u complaint_id st w in
  fst out = Ok (Redirect "admin_dashboard") /\
  match find_user_by_id owner (db_users w) with
  | Some usr =>
      let msg :=
        mkMessage "Complaint Status Update" [u_email usr]
          (StatusUpdateTemplate (u_email usr) (title c) st
             (utcnow_at E (S (clock_reads w)))) in
      mail_attempts (snd out) = (mail_attempts w ++ [msg])%list /\
      flashes (snd out) =
      (flashes w ++ [update_flash (delivered (mail_send E msg))])%list
  | None =>
      mail_attempts (snd out) = mail_attempts w /\
      flashes (snd out) = flashes w
  end.
Proof.
  intros Hrole Ho Hdb Hc Hpre Howner out. subst out.
  apply is_admin_spec in Hrole.
  unfold update_complaint_status. rewrite Hrole. simpl negb. cbv iota.
  unfold utcnow. run_monad. rewrite Ho, Hdb.
  rewrite (find_one_and_update_at o st _ pre post c Hc Hpre). simpl.
  rewrite Howner.
  destruct (find_user_by_id owner (db_users w)) as [usr|]; simpl;
    [|auto].
  rewrite send_email_run. simpl.
  destruct (mail_send E _) as [[]|e]; simpl; auto.
Qed.

Lemma update_notifies_owner_witness :
  mail_attempts
    (snd (update_complaint_status Sample.env Sample.admin
            (Sample.oid_of_nat 7) "resolved" Sample.one_complaint)) =
  [mkMessage "Complaint Status Update" [Some "a@x.com"]
     (StatusUpdateTemplate (Some "a@x.com") "AC" "resolved"
        (midnight 2024 3 1 + 1))].
Proof.
  exact (proj1 (proj2
           (update_notifies_owner Sample.env Sample.admin
              (Sample.oid_of_nat 7) "resolved" (Sample.oid_of_nat 7)
              (Sample.oid_of_nat 100) Sample.one_complaint [] []
              Sample.broken_ac eq_refl eq_refl eq_refl eq_refl
              (fun x (H : In x []) => match H with end) eq_refl))).
Defined.

(** ** Who writes what *)

(** X18: the writers of the two collections.  Of the requests, only a
    registration can change the user collection and only a submission or
    a status update can change the complaint collection; and a request
    with method GET changes nothing at all. *)
Theorem writers_of_the_collections (E : environment) (req : request)
    (w : world) :
  (match req with
   | Register _ _ => True
   | _ => db_users (snd (handle E req w)) = db_users w
   end) /\
  (match req with
   | SubmitComplaint _ _ _ | UpdateComplaintStatus _ _ _ => True
   | _ => db_complaints (snd (handle E req w)) = db_complaints w
   end) /\
  (match req with
   | Register GET _ | SubmitComplaint _ GET _ => snd (handle E req w) = w
   | _ => True
   end).
Proof.
  destruct req as [method form | u cid st | u | u method form | data];
    simpl handle.
  - destruct (register_effect E method form w) as [H _].
    destruct method; auto.
  - destruct (update_complaint_status_effect E u cid st w) as [H _]. auto.
  - unfold admin_dashboard. destruct (is_admin u); simpl; auto.
  - destruct (submit_complaint_effect E u method form w) as [H _].
    destruct method; auto.
  - rewrite check_duplicate_complaint_world. auto.
Qed.

(** ** A registration that goes through *)

(** X19: a registration is not undone by the welcome mail.  With a free
    email and a password that can be hashed, [register] stores one new
    user, with the email and the role of the form, the hash (not the
    password of the form) and the clock reading, attempts exactly one
    welcome mail to that email and redirects to the login page, whether
    the mail could be sent or not; only the flashed message tells the
    two cases apart.  The complaint collection is not touched. *)
Theorem register_survives_mail_failure (E : environment)
    (form : register_form) (w : world) (h : string) :
  find_user_by_email (r_email form) (db_users w) = None ->
  generate_password_hash E (r_password form) = Ok h ->
  let out := register E POST form w in
  let msg :=
    mkMessage "Welcome to Bus Complaint System" [r_email form]
      (WelcomeTemplate (r_email form)) in
  fst out = Ok (Redirect "login") /\
  db_users (snd out) =
  (db_users w ++
   [mkUser (new_ObjectId E (ids_generated w)) (r_email form) h (r_role form)
      (utcnow_at E (clock_reads w))])%list /\
  db_complaints (snd out) = db_complaints w /\
  mail_attempts (snd out) = (mail_attempts w ++ [msg])%list /\
  flashes (snd out) =
  (flashes w ++
   [(if delivered (mail_send E msg)
     then "Registration successful. Welcome email sent!"
     else "Registration successful, but welcome email could not be sent.",
     "message")])%list.
Proof.
  intros Hfresh Hhash out msg. subst out msg.
  unfold register. run_monad. rewrite Hfresh, Hhash.
  unfold utcnow, insert_user, generate_id. run_monad.
  rewrite send_email_run. simpl.
  destruct (mail_send E _) as [[]|e]; simpl; auto.
Qed.

Lemma register_survives_mail_failure_witness :
  List.length
    (db_users
       (snd (register (with_mail Sample.env Sample.mail_down) POST
               Extra.student_registration Sample.one_complaint))) = 3%nat /\
  flashes
    (snd (register (with_mail Sample.env Sample.mail_down) POST
            Extra.student_registration Sample.one_complaint)) =
  [("Registration successful, but welcome email could not be sent.",
    "message")].
Proof.
  destruct (register_survives_mail_failure
              (with_mail Sample.env Sample.mail_down)
              Extra.student_registration Sample.one_complaint "hashed:pw"
              eq_refl eq_refl)
    as [_ [Husers [_ [_ Hflash]]]].
  split.
  - rewrite Husers. reflexivity.
  - rewrite Hflash. reflexivity.
Defined.

(** X20: a password that cannot be hashed stops the registration before
    anything is written.  With a free email, when
    [generate_password_hash] raises, that exception leaves [register]
    and the world is exactly as before: no user stored, no mail
    attempted, nothing flashed. *)
Theorem register_without_hash_writes_nothing (E : environment)
    (form : register_form) (w : world) (e : exn) :
  find_user_by_email (r_email form) (db_users w) = None ->
  generate_password_hash E (r_password form) = Raise e ->
  register E POST form w = (Raise e, w).
Proof.
  intros Hfresh Hhash. unfold register. run_monad.
  now rewrite Hfresh, Hhash.
Qed.

Lemma register_without_hash_writes_nothing_witness :
  snd (register Sample.env POST
         (mkRegisterForm (Some "eve@x.com") None (Some "student"))
         Sample.one_complaint) = Sample.one_complaint.
Proof.
  exact (f_equal snd
           (register_without_hash_writes_nothing Sample.env
              (mkRegisterForm (Some "eve@x.com") None (Some "student"))
              Sample.one_complaint
              (Exception "AttributeError"
                 "'NoneType' object has no attribute 'encode'")
              eq_refl eq_refl)).
Defined.
